(** * chat_bot.py: the streamed-response core of the local assistant

    A shallow embedding of [src/chat_bot.py]: the stream worker
    ([OllamaWorker.run]), the session log and the controller methods of
    [AIAssistantApp] that touch it ([start_new_chat], [_on_chat_selected],
    [_get_session], [_render_message], [send_message] with its slots
    [on_chunk] and [on_full], [_show_system]) and the dispatch of
    [load_file].

    Conventions of the model.
    - A Python [str] and a [bytes] value are both a [string]: one character
      per element, so [len], slicing, [+] and [==] are the list operations.
    - A Python object that is mutated in place and shared (a session dict,
      a worker thread) lives in a store and is named by its allocation
      index; a closure that captured the object holds the index.
    - An uncaught exception is [None], and so is an event that cannot
      happen in the state at hand.
    - The rows of [chat_layout] are kept in order, and of the widgets in
      them the placeholder label of a send, which its slot [on_chunk]
      reads back: its text and whether its C++ object is still there. A
      [deleteLater] is a posted event: it is served behind the signals
      that are queued when it is called, and in front of the later ones;
      reading a deleted label raises [RuntimeError]. The status label and
      the scroll area live as long as the window. What [_show_system] was
      asked to show is kept, in call order, and so is the text of the
      compose box.
    - A signal emitted by a worker thread is queued for the GUI thread and
      handed, in emission order, to the slots [send_message] connected to
      that worker. A worker object lives until its [run] has returned and
      its signals are handled, whether [self.ollama_worker] still refers
      to it or not.
    - A method of the window runs without interruption; a worker thread
      moves between two of them, one line of the response at a time. The
      bounded [wait(200)] changes no variable and has no counterpart. *)

From Stdlib Require Import String Ascii List ZArith Lia Floats.
From stdpp Require Import base list strings option.

Open Scope string_scope.
Open Scope list_scope.
Open Scope nat_scope.
Local Set Warnings "-register-all".

(** ** Python values and strings *)

Module Py.

(** What [json.loads] can return. A dict is its list of items in insertion
    order; its keys are distinct and a lookup takes the first item. *)
Inductive value :=
| None_
| Bool (b : bool)
| Int (z : Z)
| Float (f : float)
| Str (s : string)
| List (l : list value)
| Dict (d : list (string * value)).

(** [bool(v)]: the truth value of an object. *)
Definition truthy (v : value) : bool :=
  match v with
  | None_ => false
  | Bool b => b
  | Int z => negb (z =? 0)%Z
  | Float f => negb (f =? 0)%float
  | Str s => negb (String.eqb s "")
  | List l => match l with [] => false | _ => true end
  | Dict d => match d with [] => false | _ => true end
  end.

(** [type(v).__name__] *)
Definition type_name (v : value) : string :=
  match v with
  | None_ => "NoneType"
  | Bool _ => "bool"
  | Int _ => "int"
  | Float _ => "float"
  | Str _ => "str"
  | List _ => "list"
  | Dict _ => "dict"
  end.

(** [d.get(k)] on the items of a dict. *)
Fixpoint get (k : string) (d : list (string * value)) : option value :=
  match d with
  | [] => None
  | (k', v) :: d' => if String.eqb k k' then Some v else get k d'
  end.

Definition quote : string := String (ascii_of_nat 34) "".

(** The one-character string of a line feed. *)
Definition newline : string := String (ascii_of_nat 10) "".

(** [s + v] for a [str] [s]: the sum, or the message of the [TypeError]. *)
Definition str_add (s : string) (v : value) : string + string :=
  match v with
  | Str t => inl (s +:+ t)
  | _ => inr ("can only concatenate str (not " +:+ quote +:+ type_name v
                +:+ quote +:+ ") to str")
  end.

(** [str.isspace] on the characters of the model (code points below 256). *)
Definition isspace (c : ascii) : bool :=
  let n := nat_of_ascii c in
  (((9 <=? n) && (n <=? 13)) || ((28 <=? n) && (n <=? 32))
   || (n =? 133) || (n =? 160))%nat.

Fixpoint lstrip (s : string) : string :=
  match s with
  | String c s' => if isspace c then lstrip s' else s
  | EmptyString => EmptyString
  end.

Definition rstrip (s : string) : string := String.rev (lstrip (String.rev s)).

(** [s.strip()] *)
Definition strip (s : string) : string := rstrip (lstrip s).

(** [s[:n]] *)
Definition slice_to (n : nat) (s : string) : string := substring 0 n s.

End Py.

(** ** OllamaWorker *)

(** The four signals of the worker, each with its argument. *)
Inductive signal :=
| typing_signal (b : bool)
| response_chunk (s : string)
| full_response (s : string)
| error_occurred (s : string).

(** How one pass through the body of [for line in r.iter_lines()] ends. *)
Inductive flow :=
| Continue
| Break
| Raise (e : string).

Section Worker.

(** [json.loads(line.decode("utf-8"))]; [None] when either call raises. *)
Variable json_loads : string -> option Py.value.

(** The [message] branch of the loop body on a decoded record: the new
    value of [full] and the chunk emitted, or the escaping [TypeError]. *)
Definition take_content (data : Py.value) (full : string)
  : string + (string * list signal) :=
  match data with
  | Py.Dict d =>
      match Py.get "message" d with
      | Some (Py.Dict m) =>
          let content := match Py.get "content" m with
                         | Some v => v
                         | None => Py.None_
                         end in
          if Py.truthy content then
            match Py.str_add full content with
            | inl full' =>
                inr (full', match content with
                            | Py.Str c => [response_chunk c]
                            | _ => []
                            end)
            | inr e => inl e
            end
          else inr (full, [])
      | _ => inr (full, [])
      end
  | _ => inr (full, [])
  end.

(** [isinstance(data, dict) and data.get("done", False)] *)
Definition is_done (data : Py.value) : bool :=
  match data with
  | Py.Dict d =>
      match Py.get "done" d with
      | Some v => Py.truthy v
      | None => false
      end
  | _ => false
  end.

(** One pass through the loop body (lines 55-72), with [_running] as the
    worker reads it after the line has arrived. *)
Definition loop_body (_running : bool) (line : string) (full : string)
  : flow * string * list signal :=
  if negb _running then (Break, full, [])
  else if String.eqb line "" then (Continue, full, [])
  else
    match json_loads line with
    | None => (Continue, full, [])
    | Some data =>
        match take_content data full with
        | inl e => (Raise e, full, [])
        | inr (full', out) =>
            if is_done data then (Break, full', out)
            else (Continue, full', out)
        end
    end.

(** What the [try] block of [run] comes to. *)
Inductive outcome :=
| Emitted (full : string)
| Failed (e : string).

(** The [for] loop over the lines [iter_lines] yields, then line 74. Each
    line comes with the value of [_running] at the moment the worker tests
    it; [broken] is the exception the iterator raises after the lines, if
    the connection breaks. *)
Fixpoint for_lines (ls : list (bool * string)) (broken : option string)
  (full : string) : outcome * list signal :=
  match ls with
  | [] =>
      match broken with
      | Some e => (Failed e, [])
      | None => (Emitted full, [])
      end
  | (r, line) :: ls' =>
      match loop_body r line full with
      | (Continue, full', out) =>
          let '(o, out') := for_lines ls' broken full' in (o, out ++ out')
      | (Break, full', out) => (Emitted full', out)
      | (Raise e, _, out) => (Failed e, out)
      end
  end.

(** What [requests.post] and [raise_for_status] come to. *)
Inductive response :=
| Refused (e : string)
| Opened (b : list (bool * string)) (broken : option string).

(** [OllamaWorker.run]: the signals it emits, in order. *)
Definition run (r : response) : list signal :=
  [typing_signal true]
  ++ match r with
     | Refused e => [error_occurred e]
     | Opened ls broken =>
         match for_lines ls broken "" with
         | (Emitted full, out) => out ++ [full_response full]
         | (Failed e, out) => out ++ [error_occurred e]
         end
     end
  ++ [typing_signal false].

(** A worker nobody stops: every line is read with [_running] true. *)
Definition unstopped (ls : list string) : list (bool * string) :=
  map (fun l => (true, l)) ls.

End Worker.

(** ** The session log *)

Module Message.
Record t := { role : string; content : string }.
End Message.

Module Session.
Record t := { id : string; title : string; messages : list Message.t }.

Definition append (m : Message.t) (s : t) : t :=
  {| id := id s; title := title s; messages := messages s ++ [m] |}.

Definition set_title (x : string) (s : t) : t :=
  {| id := id s; title := x; messages := messages s |}.
End Session.

(** ** The worker threads as the controller sees them *)

Inductive phase :=
| Created     (* constructed and started; [run] has not begun *)
| Posting     (* [run] has emitted [typing_signal(True)] and sent the request *)
| Streaming   (* inside the [for] loop *)
| Finished.   (* [run] has returned *)

Module Worker.
Record t := {
  model : string;
  messages : nat;        (* [self.messages]: the list of that session *)
  _running : bool;
  stage : phase;
  full : string;         (* the local [full] of [run] *)
  payload : option (string * list Message.t)   (* what [run] posted *)
}.

(** [OllamaWorker.__init__] *)
Definition init (model : string) (messages : nat) : t :=
  {| model := model; messages := messages; _running := true;
     stage := Created; full := ""; payload := None |}.

(** [OllamaWorker.stop] *)
Definition stop (w : t) : t :=
  {| model := model w; messages := messages w; _running := false;
     stage := stage w; full := full w; payload := payload w |}.

Definition goto (p : phase) (full' : string) (w : t) : t :=
  {| model := model w; messages := messages w; _running := _running w;
     stage := p; full := full'; payload := payload w |}.

Definition post (msgs : list Message.t) (w : t) : t :=
  {| model := model w; messages := messages w; _running := _running w;
     stage := Posting; full := full w; payload := Some (model w, msgs) |}.

(** Started, not stopped, and [run] has not returned. *)
Definition active (w : t) : bool :=
  _running w && match stage w with Finished => false | _ => true end.
End Worker.

(** What the thread of a worker meets next. *)
Inductive net_event :=
| Begins                      (* [run] starts and posts the request *)
| PostRaises (e : string)     (* [requests.post] or [raise_for_status] raises *)
| PostReturns                 (* a 2xx response: the loop can start *)
| LineArrives (line : string) (* [iter_lines] yields a line *)
| StreamEnds                  (* [iter_lines] is exhausted *)
| StreamBreaks (e : string).  (* [iter_lines] raises *)

(** One move of a worker thread: the worker afterwards and the signals it
    emitted. [msgs] is the list [self.messages] refers to at that moment. *)
Definition thread_step (json_loads : string -> option Py.value)
  (msgs : list Message.t) (ev : net_event) (w : Worker.t)
  : option (Worker.t * list signal) :=
  match Worker.stage w, ev with
  | Created, Begins => Some (Worker.post msgs w, [typing_signal true])
  | Posting, PostRaises e =>
      Some (Worker.goto Finished (Worker.full w) w,
            [error_occurred e; typing_signal false])
  | Posting, PostReturns => Some (Worker.goto Streaming "" w, [])
  | Streaming, LineArrives line =>
      match loop_body json_loads (Worker._running w) line (Worker.full w) with
      | (Continue, full', out) => Some (Worker.goto Streaming full' w, out)
      | (Break, full', out) =>
          Some (Worker.goto Finished full' w,
                out ++ [full_response full'; typing_signal false])
      | (Raise e, full', out) =>
          Some (Worker.goto Finished full' w,
                out ++ [error_occurred e; typing_signal false])
      end
  | Streaming, StreamEnds =>
      Some (Worker.goto Finished (Worker.full w) w,
            [full_response (Worker.full w); typing_signal false])
  | Streaming, StreamBreaks e =>
      Some (Worker.goto Finished (Worker.full w) w,
            [error_occurred e; typing_signal false])
  | _, _ => None
  end.

(** ** The label of the answer under way *)

(** [s.replace(c, rep)] for a one-character [c]; [re.sub(c, rep, s)] is
    the same when [c] is no metacharacter. *)
Fixpoint replace_char (c : ascii) (rep : string) (s : string) : string :=
  match s with
  | EmptyString => EmptyString
  | String x s' =>
      if Ascii.eqb x c then rep +:+ replace_char c rep s'
      else String x (replace_char c rep s')
  end.

Definition line_feed : ascii := ascii_of_nat 10.

(** [_format_html], lines 347-349: three passes over the text. *)
Definition _format_html (t : string) : string :=
  let s := replace_char "<" "&lt;" t in
  let s := replace_char ">" "&gt;" s in
  replace_char line_feed "<br>" s.

Fixpoint has_char (c : ascii) (s : string) : bool :=
  match s with
  | EmptyString => false
  | String x s' => Ascii.eqb x c || has_char c s'
  end.

(** [re.sub(r"<[^>]*>", "", s)], from left to right: a [<] opens a match
    when a [>] follows somewhere, and the match ends at the first one;
    [in_tag] says that the scan is inside a match. *)
Fixpoint strip_tags_from (in_tag : bool) (s : string) : string :=
  match s with
  | EmptyString => EmptyString
  | String x s' =>
      if in_tag then strip_tags_from (negb (Ascii.eqb x ">")) s'
      else if Ascii.eqb x "<" && has_char ">" s' then strip_tags_from true s'
      else String x (strip_tags_from false s')
  end.

Definition strip_tags (s : string) : string := strip_tags_from false s.

(** The slot [on_chunk], lines 390-393, on the text of its label. *)
Definition on_chunk (label chunk : string) : string :=
  _format_html (strip_tags label +:+ chunk).

(** [s.replace("\n", "")] *)
Definition without_line_feeds (s : string) : string :=
  replace_char line_feed "" s.

(** ** The rows of the chat display *)

(** A row of [chat_layout]. *)
Inductive widget :=
| Bubble (role text : string)     (* a row of [_render_message] *)
| SystemBubble (text : string)    (* a row of [_show_system] *)
| PlaceholderRow (w : nat).       (* [ph_row] of the send that made worker [w] *)

(** The C++ object behind a widget. *)
Inductive life :=
| Alive
| Doomed (n : nat)   (* [deleteLater] was called: [n] queued signals come first *)
| Deleted.

(** [placeholder_lbl], the label inside a placeholder row. *)
Module Label.
Record t := { text : string; state : life }.

(** [QLabel("")] *)
Definition init : t := {| text := ""; state := Alive |}.

Definition setText (x : string) (l : t) : t :=
  {| text := x; state := state l |}.

(** [deleteLater] on the row of the label while [n] signals are queued. *)
Definition deleteLater (n : nat) (l : t) : t :=
  match state l with
  | Alive => {| text := text l; state := Doomed n |}
  | _ => l
  end.

(** The event loop goes on to its next queued signal. *)
Definition tick (l : t) : t :=
  match state l with
  | Doomed 0 => {| text := text l; state := Deleted |}
  | Doomed (S n) => {| text := text l; state := Doomed n |}
  | _ => l
  end.

End Label.

(** ** AIAssistantApp *)

Record App := {
  current_model : option string;
  sessions : list Session.t;        (* the session dicts, by allocation index *)
  chat_sessions : list nat;         (* [self.chat_sessions], most recent first *)
  current_session_id : option string;
  ollama_worker : option nat;       (* [self.ollama_worker] *)
  workers : list Worker.t;          (* the worker objects, by allocation index *)
  input_box : string;               (* the text of the compose box *)
  shown : list string;              (* the texts given to [_show_system] *)
  queue : list (nat * signal);      (* signals emitted and not yet handled *)
  chat_layout : list widget;        (* the rows of [self.chat_layout] *)
  labels : list Label.t             (* the placeholder label of each send:
                                       that of worker [w] at index [w] *)
}.

Definition set_current_model (x : option string) (a : App) : App :=
  {| current_model := x; sessions := sessions a;
     chat_sessions := chat_sessions a;
     current_session_id := current_session_id a;
     ollama_worker := ollama_worker a; workers := workers a;
     input_box := input_box a; shown := shown a; queue := queue a;
     chat_layout := chat_layout a; labels := labels a |}.

Definition set_sessions (x : list Session.t) (a : App) : App :=
  {| current_model := current_model a; sessions := x;
     chat_sessions := chat_sessions a;
     current_session_id := current_session_id a;
     ollama_worker := ollama_worker a; workers := workers a;
     input_box := input_box a; shown := shown a; queue := queue a;
     chat_layout := chat_layout a; labels := labels a |}.

Definition set_chat_sessions (x : list nat) (a : App) : App :=
  {| current_model := current_model a; sessions := sessions a;
     chat_sessions := x; current_session_id := current_session_id a;
     ollama_worker := ollama_worker a; workers := workers a;
     input_box := input_box a; shown := shown a; queue := queue a;
     chat_layout := chat_layout a; labels := labels a |}.

Definition set_current_session_id (x : option string) (a : App) : App :=
  {| current_model := current_model a; sessions := sessions a;
     chat_sessions := chat_sessions a; current_session_id := x;
     ollama_worker := ollama_worker a; workers := workers a;
     input_box := input_box a; shown := shown a; queue := queue a;
     chat_layout := chat_layout a; labels := labels a |}.

Definition set_ollama_worker (x : option nat) (a : App) : App :=
  {| current_model := current_model a; sessions := sessions a;
     chat_sessions := chat_sessions a;
     current_session_id := current_session_id a; ollama_worker := x;
     workers := workers a; input_box := input_box a; shown := shown a;
     queue := queue a; chat_layout := chat_layout a; labels := labels a |}.

Definition set_workers (x : list Worker.t) (a : App) : App :=
  {| current_model := current_model a; sessions := sessions a;
     chat_sessions := chat_sessions a;
     current_session_id := current_session_id a;
     ollama_worker := ollama_worker a; workers := x;
     input_box := input_box a; shown := shown a; queue := queue a;
     chat_layout := chat_layout a; labels := labels a |}.

Definition set_input_box (x : string) (a : App) : App :=
  {| current_model := current_model a; sessions := sessions a;
     chat_sessions := chat_sessions a;
     current_session_id := current_session_id a;
     ollama_worker := ollama_worker a; workers := workers a; input_box := x;
     shown := shown a; queue := queue a; chat_layout := chat_layout a;
     labels := labels a |}.

Definition set_shown (x : list string) (a : App) : App :=
  {| current_model := current_model a; sessions := sessions a;
     chat_sessions := chat_sessions a;
     current_session_id := current_session_id a;
     ollama_worker := ollama_worker a; workers := workers a;
     input_box := input_box a; shown := x; queue := queue a;
     chat_layout := chat_layout a; labels := labels a |}.

Definition set_queue (x : list (nat * signal)) (a : App) : App :=
  {| current_model := current_model a; sessions := sessions a;
     chat_sessions := chat_sessions a;
     current_session_id := current_session_id a;
     ollama_worker := ollama_worker a; workers := workers a;
     input_box := input_box a; shown := shown a; queue := x;
     chat_layout := chat_layout a; labels := labels a |}.

Definition set_chat_layout (x : list widget) (a : App) : App :=
  {| current_model := current_model a; sessions := sessions a;
     chat_sessions := chat_sessions a;
     current_session_id := current_session_id a;
     ollama_worker := ollama_worker a; workers := workers a;
     input_box := input_box a; shown := shown a; queue := queue a;
     chat_layout := x; labels := labels a |}.

Definition set_labels (x : list Label.t) (a : App) : App :=
  {| current_model := current_model a; sessions := sessions a;
     chat_sessions := chat_sessions a;
     current_session_id := current_session_id a;
     ollama_worker := ollama_worker a; workers := workers a;
     input_box := input_box a; shown := shown a; queue := queue a;
     chat_layout := chat_layout a; labels := x |}.

(** [session["messages"].append(m)] on the session dict [r]. *)
Definition append_message (r : nat) (m : Message.t) (a : App) : App :=
  set_sessions (alter (Session.append m) r (sessions a)) a.

(** [next(s for s in refs if s["id"] == cid)]; [None] is [StopIteration]. *)
Fixpoint first_with_id (store : list Session.t) (cid : option string)
  (refs : list nat) : option nat :=
  match refs with
  | [] => None
  | r :: refs' =>
      match store !! r with
      | Some s =>
          if bool_decide (Some (Session.id s) = cid) then Some r
          else first_with_id store cid refs'
      | None => None
      end
  end.

Definition _get_session (a : App) : option nat :=
  first_with_id (sessions a) (current_session_id a) (chat_sessions a).

(** [sum(1 for m in messages if m["role"] == "user")] *)
Definition count_user (ms : list Message.t) : nat :=
  length (filter (fun m => Message.role m = "user") ms).

(** [text[:30] + ("..." if len(text) > 30 else "")] *)
Definition title_of (text : string) : string :=
  Py.slice_to 30 text +:+ (if (30 <? String.length text)%nat then "..." else "").

(** [self.chat_layout.addWidget(row)] *)
Definition addWidget (wd : widget) (a : App) : App :=
  set_chat_layout (chat_layout a ++ [wd]) a.

(** [it.widget().deleteLater()] on a row taken from the layout, on the
    labels [ls]: a placeholder label is a child of its row and goes with
    it. [n] signals are queued. *)
Definition deleteLater (n : nat) (ls : list Label.t) (wd : widget)
  : list Label.t :=
  match wd with
  | PlaceholderRow w => alter (Label.deleteLater n) w ls
  | _ => ls
  end.

(** [_clear_chat_display]: every row is taken from the layout and
    deleted. *)
Definition _clear_chat_display (a : App) : App :=
  set_chat_layout []
    (set_labels (foldl (deleteLater (length (queue a))) (labels a)
                       (chat_layout a)) a).

(** [_render_message]: lines 276-281, and the row of line 335. *)
Definition _render_message (role text : string) (initial : bool) (a : App)
  : option App :=
  a' ← (if initial then Some a
        else
          r ← _get_session a;
          let a1 := append_message r {| Message.role := role;
                                        Message.content := text |} a in
          s ← sessions a1 !! r;
          if bool_decide (role = "user")
             && (count_user (Session.messages s) =? 1)%nat
          then Some (set_sessions (alter (Session.set_title (title_of text)) r
                                     (sessions a1)) a1)
          else Some a1);
  Some (addWidget (Bubble role text) a').

(** [start_new_chat]; [cid] is the value of [str(uuid.uuid4())]. *)
Definition start_new_chat (initial : bool) (cid : string) (a : App)
  : option App :=
  let session := {| Session.id := cid; Session.title := "New Chat";
                    Session.messages := [] |} in
  let r := length (sessions a) in
  let a1 := set_sessions (sessions a ++ [session]) a in
  let a2 := set_chat_sessions (r :: chat_sessions a1) a1 in
  let a3 := set_current_session_id (Some cid) a2 in
  let a4 := _clear_chat_display a3 in
  if initial then Some a4
  else _render_message "assistant" "Hello! How can I help you?" false a4.

(** [_on_chat_selected]; [cid] is the id stored in the clicked item. *)
Definition _on_chat_selected (cid : string) (a : App) : option App :=
  if bool_decide (Some cid = current_session_id a) then Some a
  else
    let a1 := set_current_session_id (Some cid) a in
    let a2 := _clear_chat_display a1 in
    r ← _get_session a2;
    s ← sessions a2 !! r;
    foldl (fun acc m => acc ≫= _render_message (Message.role m)
                                  (Message.content m) true)
          (Some a2) (Session.messages s).

(** The rows that loop draws for the messages [ms]. *)
Definition bubbles (ms : list Message.t) : list widget :=
  map (fun m => Bubble (Message.role m) (Message.content m)) ms.

Definition _show_system (text : string) (a : App) : App :=
  addWidget (SystemBubble text) (set_shown (shown a ++ [text]) a).

(** [_on_model_selected]; [name] is the current text of the dropdown. *)
Definition _on_model_selected (name : string) (a : App) : App :=
  set_current_model (Some name) a.

(** [bool(self.current_model)], with the model when it is true. *)
Definition selected_model (a : App) : option string :=
  match current_model a with
  | Some m => if String.eqb m "" then None else Some m
  | None => None
  end.

(** Lines 379-385: a worker still referenced is stopped and dropped. *)
Definition supersede (a : App) : App :=
  match ollama_worker a with
  | Some w =>
      set_ollama_worker None
        (set_workers (alter Worker.stop w (workers a)) a)
  | None => a
  end.

(** Lines 366-376: the placeholder row of the worker about to be made. *)
Definition add_placeholder (a : App) : App :=
  addWidget (PlaceholderRow (length (workers a)))
    (set_labels (labels a ++ [Label.init]) a).

(** [send_message]: the guards, the user message, the placeholder row,
    the old worker, the new worker. The slots of the new worker are
    [on_chunk], [on_full] and the two lambdas, below. *)
Definition send_message (a : App) : option App :=
  let user_text := Py.strip (input_box a) in
  if String.eqb user_text "" then Some a
  else
    match selected_model a with
    | None => Some (_show_system "Select a model first" a)
    | Some model =>
        session ← _get_session a;
        let a1 := append_message session
                    {| Message.role := "user"; Message.content := user_text |} a in
        a2 ← _render_message "user" user_text false a1;
        let a3 := add_placeholder (set_input_box "" a2) in
        let a4 := supersede a3 in
        let w := length (workers a4) in
        Some (set_ollama_worker (Some w)
                (set_workers (workers a4 ++ [Worker.init model session]) a4))
    end.

(** Lines 400-407 of [on_full]: the last row of the layout, whichever it
    is, is taken out and deleted. Nothing in the [try] block raises. *)
Definition take_last (a : App) : App :=
  set_chat_layout (removelast (chat_layout a))
    (set_labels (match list.last (chat_layout a) with
                 | Some wd => deleteLater (length (queue a)) (labels a) wd
                 | None => labels a
                 end) a).

(** The slot [on_full] of worker [w]: [session] is the dict the closure
    captured, which is the one whose list the worker was given. *)
Definition on_full (w : nat) (full_text : string) (a : App) : option App :=
  wk ← workers a !! w;
  let session := Worker.messages wk in
  let a0 := take_last a in
  let a1 := append_message session
              {| Message.role := "assistant"; Message.content := full_text |} a0 in
  a2 ← _render_message "assistant" full_text false a1;
  Some (set_ollama_worker None a2).

(** The slot [on_chunk] of worker [w], lines 390-394: the closure holds
    the placeholder label of its send; [placeholder_lbl.text()] raises
    [RuntimeError] once the label is deleted. *)
Definition on_chunk_slot (w : nat) (chunk : string) (a : App) : option App :=
  l ← labels a !! w;
  match Label.state l with
  | Deleted => None
  | _ =>
      let l' := Label.setText (on_chunk (Label.text l) chunk) l in
      Some (set_labels (<[w := l']> (labels a)) a)
  end.

(** The slot a signal of worker [w] is connected to. *)
Definition slot (w : nat) (s : signal) (a : App) : option App :=
  match s with
  | response_chunk c => on_chunk_slot w c a
  | typing_signal _ => Some a                  (* the status label only *)
  | error_occurred e => Some (_show_system ("AI Error: " +:+ e) a)
  | full_response t => on_full w t a
  end.

(** ** The event loop *)

Inductive event :=
| Typed (text : string)          (* the compose box is edited to [text] *)
| SendClicked
| NewChatClicked (cid : string)
| ChatClicked (row : nat)        (* an item of the chat list *)
| ModelPicked (name : string)
| Thread (w : nat) (e : net_event)
| Handled.                       (* the oldest queued signal reaches its slot *)

(** The deletions posted in front of the oldest queued signal are served,
    the others are one signal nearer. *)
Definition deferred_deletes (a : App) : App :=
  set_labels (map Label.tick (labels a)) a.

Section Loop.

Variable json_loads : string -> option Py.value.

Definition step (ev : event) (a : App) : option App :=
  match ev with
  | Typed text => Some (set_input_box text a)
  | SendClicked => send_message a
  | NewChatClicked cid => start_new_chat false cid a
  | ChatClicked row =>
      r ← chat_sessions a !! row;
      s ← sessions a !! r;
      _on_chat_selected (Session.id s) a
  | ModelPicked name => Some (_on_model_selected name a)
  | Thread w e =>
      wk ← workers a !! w;
      s ← sessions a !! Worker.messages wk;
      '(wk', out) ← thread_step json_loads (Session.messages s) e wk;
      Some (set_queue (queue a ++ map (pair w) out)
              (set_workers (<[w := wk']> (workers a)) a))
  | Handled =>
      match queue a with
      | [] => None
      | (w, s) :: q => slot w s (set_queue q (deferred_deletes a))
      end
  end.

Fixpoint steps (evs : list event) (a : App) : option App :=
  match evs with
  | [] => Some a
  | ev :: evs' => a' ← step ev a; steps evs' a'
  end.

End Loop.

(** The fields as lines 140-146 set them, with what [load_models] left in
    [current_model], and the empty layout of line 197. *)
Definition blank (model : option string) : App :=
  {| current_model := model; sessions := []; chat_sessions := [];
     current_session_id := None; ollama_worker := None; workers := [];
     input_box := ""; shown := []; queue := [];
     chat_layout := []; labels := [] |}.

(** [AIAssistantApp.__init__]: [blank], then [start_new_chat(initial=True)]
    with the id [cid]: one empty session, selected. *)
Definition init (model : option string) (cid : string) : App :=
  {| current_model := model;
     sessions := [{| Session.id := cid; Session.title := "New Chat";
                     Session.messages := [] |}];
     chat_sessions := [0];
     current_session_id := Some cid;
     ollama_worker := None; workers := []; input_box := "";
     shown := []; queue := []; chat_layout := []; labels := [] |}.

(** ** load_file *)

(** What [p.extract_text()] comes to on one page. *)
Inductive page :=
| ExtractRaises
| ExtractNone
| Extracted (text : string).

(** The file the dialog returned, as the three readers see it: the text, or
    the message of the exception raised. *)
Record file := {
  ext : string;                          (* [os.path.splitext(f)[1].lower()] *)
  read : string + string;                (* [open(f, "r").read()] *)
  paragraphs : list string + string;     (* [docx.Document(f)], its paragraph texts *)
  pages : list page + string             (* [PdfReader(f).pages] *)
}.

(** The value of the local [content] when line 484 is reached. *)
Inductive content_value :=
| Text (s : string)
| JoinMethod.            (* the bound method ["\n".join] itself *)

(** What [load_file] does to the window. *)
Inductive file_effect :=
| NoEffect                         (* the dialog was cancelled *)
| Insert (text : string)           (* [input_box.insertPlainText(text)] *)
| Show (text : string).            (* [_show_system(text)] *)

(** Lines 476-480: the loop over the pages. *)
Fixpoint extract_pages (ps : list page) (content : string) : string :=
  match ps with
  | [] => content
  | ExtractRaises :: ps' => extract_pages ps' content
  | ExtractNone :: ps' => extract_pages ps' (content +:+ "" +:+ Py.newline)
  | Extracted t :: ps' => extract_pages ps' (content +:+ t +:+ Py.newline)
  end.

Section LoadFile.

(** Whether the optional imports of lines 17-26 succeeded. *)
Variable docx_installed : bool.
Variable PdfReader_installed : bool.

(** [str(e)] of the [TypeError] that [insertPlainText] raises when it is
    given something that is not a [str]. *)
Variable insert_type_error : string.

(** Lines 462-483: the branch on [ext]; [inr] is an early [return] or the
    exception handler, with the text shown. *)
Definition read_content (f : file) : content_value + string :=
  if String.eqb (ext f) ".txt" then
    match read f with
    | inl text => inl (Text text)
    | inr e => inr ("File read error: " +:+ e)
    end
  else if String.eqb (ext f) ".docx" then
    if negb docx_installed then inr "python-docx not installed"
    else
      match paragraphs f with
      | inl _ => inl JoinMethod
      | inr e => inr ("File read error: " +:+ e)
      end
  else if String.eqb (ext f) ".pdf" then
    if negb PdfReader_installed then inr "PyPDF2 not installed"
    else
      match pages f with
      | inl ps => inl (Text (extract_pages ps ""))
      | inr e => inr ("File read error: " +:+ e)
      end
  else inr ("Unsupported: " +:+ ext f).

(** [load_file]; [picked] is the file of an accepted dialog. *)
Definition load_file (picked : option file) : file_effect :=
  match picked with
  | None => NoEffect
  | Some f =>
      match read_content f with
      | inl (Text text) => Insert text
      | inl JoinMethod => Show ("File read error: " +:+ insert_type_error)
      | inr msg => Show msg
      end
  end.

(** [insertPlainText] with the cursor after [cursor] characters and
    nothing selected. *)
Definition insertPlainText (cursor : nat) (text box : string) : string :=
  substring 0 cursor box +:+ text
  +:+ substring cursor (String.length box - cursor) box.

(** The window after [load_file]. *)
Definition load_file_app (picked : option file) (cursor : nat) (a : App)
  : App :=
  match load_file picked with
  | NoEffect => a
  | Insert text => set_input_box (insertPlainText cursor text (input_box a)) a
  | Show text => _show_system text a
  end.

End LoadFile.

(** ** A decoder to run the worker on JSON text

    [json.loads] belongs to the Python library; the worker above takes it
    as a parameter. To run the worker on actual lines, [Json.loads] decodes
    the fragment of JSON with integers only and with the two-character
    escapes only, over ASCII text, and rejects everything else. *)

Module Json.

Definition is_ws (c : ascii) : bool :=
  let n := nat_of_ascii c in (n =? 32) || (n =? 9) || (n =? 10) || (n =? 13).

Fixpoint skip_ws (s : string) : string :=
  match s with
  | String c s' => if is_ws c then skip_ws s' else s
  | EmptyString => EmptyString
  end.

Definition is_digit (c : ascii) : bool :=
  let n := nat_of_ascii c in (48 <=? n) && (n <=? 57).

(** The digits at the head of [s], as a number, and the rest. *)
Fixpoint digits (acc : Z) (s : string) : Z * string :=
  match s with
  | String c s' =>
      if is_digit c
      then digits (10 * acc + Z.of_nat (nat_of_ascii c - 48))%Z s'
      else (acc, s)
  | EmptyString => (acc, s)
  end.

(** After the opening quote: the characters up to the closing quote. *)
Fixpoint chars (s : string) : option (string * string) :=
  match s with
  | EmptyString => None
  | String c s' =>
      let n := nat_of_ascii c in
      if n =? 34 then Some ("", s')
      else if (n <? 32) || (127 <? n) then None
      else if n =? 92 then
        match s' with
        | String e s'' =>
            let m := nat_of_ascii e in
            c' ← (if (m =? 34) || (m =? 92) || (m =? 47) then Some e
                  else if m =? 98 then Some (ascii_of_nat 8)
                  else if m =? 102 then Some (ascii_of_nat 12)
                  else if m =? 110 then Some (ascii_of_nat 10)
                  else if m =? 114 then Some (ascii_of_nat 13)
                  else if m =? 116 then Some (ascii_of_nat 9)
                  else None);
            '(t, r) ← chars s'';
            Some (String c' t, r)
        | EmptyString => None
        end
      else '(t, r) ← chars s'; Some (String c t, r)
  end.

(** [d[k] = v] on the items of a dict. *)
Fixpoint set_item (k : string) (v : Py.value) (d : list (string * Py.value))
  : list (string * Py.value) :=
  match d with
  | [] => [(k, v)]
  | (k', v') :: d' =>
      if String.eqb k k' then (k', v) :: d' else (k', v') :: set_item k v d'
  end.

Inductive goal :=
| AValue
| Members (acc : list (string * Py.value))
| Elements (acc : list Py.value).

Fixpoint parse (fuel : nat) (g : goal) (s : string)
  : option (Py.value * string) :=
  match fuel with
  | 0 => None
  | S fuel' =>
      match g with
      | AValue =>
          match skip_ws s with
          | String "{" r =>
              match skip_ws r with
              | String "}" r' => Some (Py.Dict [], r')
              | _ => parse fuel' (Members []) r
              end
          | String "[" r =>
              match skip_ws r with
              | String "]" r' => Some (Py.List [], r')
              | _ => parse fuel' (Elements []) r
              end
          | String "t" (String "r" (String "u" (String "e" r))) =>
              Some (Py.Bool true, r)
          | String "f" (String "a" (String "l" (String "s" (String "e" r)))) =>
              Some (Py.Bool false, r)
          | String "n" (String "u" (String "l" (String "l" r))) =>
              Some (Py.None_, r)
          | String c r =>
              if nat_of_ascii c =? 34 then
                '(t, r') ← chars r; Some (Py.Str t, r')
              else
                let '(neg, body) := if nat_of_ascii c =? 45 then (true, r)
                                    else (false, String c r) in
                match body with
                | String d r' =>
                    if is_digit d then
                      let '(z, rest) := if nat_of_ascii d =? 48 then (0%Z, r')
                                        else digits 0 body in
                      match rest with
                      | String "." _ | String "e" _ | String "E" _ => None
                      | String d' _ =>
                          if is_digit d' then None
                          else Some (Py.Int (if neg then - z else z), rest)
                      | EmptyString =>
                          Some (Py.Int (if neg then - z else z), rest)
                      end
                    else None
                | EmptyString => None
                end
          | EmptyString => None
          end
      | Members acc =>
          match skip_ws s with
          | String c r =>
              if nat_of_ascii c =? 34 then
                '(k, r1) ← chars r;
                match skip_ws r1 with
                | String ":" r2 =>
                    '(v, r3) ← parse fuel' AValue r2;
                    match skip_ws r3 with
                    | String "," r4 => parse fuel' (Members (set_item k v acc)) r4
                    | String "}" r4 => Some (Py.Dict (set_item k v acc), r4)
                    | _ => None
                    end
                | _ => None
                end
              else None
          | EmptyString => None
          end
      | Elements acc =>
          '(v, r1) ← parse fuel' AValue s;
          match skip_ws r1 with
          | String "," r2 => parse fuel' (Elements (acc ++ [v])) r2
          | String "]" r2 => Some (Py.List (acc ++ [v]), r2)
          | _ => None
          end
      end
  end.

(** The whole text is one value, white space around it allowed. *)
Definition loads (s : string) : option Py.value :=
  '(v, r) ← parse (2 * String.length s + 2) AValue s;
  if String.eqb (skip_ws r) "" then Some v else None.

End Json.

(** [s] between double quotes. *)
Definition quoted (s : string) : string := Py.quote +:+ s +:+ Py.quote.

(** The line of a record [{"message":{"content":c}}], [c] already in JSON. *)
Definition content_line (c : string) : string :=
  "{" +:+ quoted "message" +:+ ":{" +:+ quoted "content" +:+ ":" +:+ c +:+ "}}".

(** The line [{"done":true}]. *)
Definition done_line : string := "{" +:+ quoted "done" +:+ ":true}".

(** The line [{"message":{"content":c},"done":true}]. *)
Definition last_line (c : string) : string :=
  "{" +:+ quoted "message" +:+ ":{" +:+ quoted "content" +:+ ":" +:+ c
  +:+ "}," +:+ quoted "done" +:+ ":true}".

(** ** The stream client, as the specification words it *)

(** The strings of a list, one after the other. *)
Definition concat (ls : list string) : string := foldr String.append "" ls.

Section Claimed.

Variable json_loads : string -> option Py.value.

(** The records of a stream: its non-empty lines that decode. *)
Definition records (ls : list string) : list Py.value :=
  omap (fun l => if String.eqb l "" then None else json_loads l) ls.

(** The records up to the first one with a true [done], that one included. *)
Fixpoint upto_done (rs : list Py.value) : list Py.value :=
  match rs with
  | [] => []
  | r :: rs' => if is_done r then [r] else r :: upto_done rs'
  end.

(** The [content] of a record shaped as [{message:{content}}]. *)
Definition content_of (data : Py.value) : option Py.value :=
  match data with
  | Py.Dict d =>
      match Py.get "message" d with
      | Some (Py.Dict m) => Py.get "content" m
      | _ => None
      end
  | _ => None
  end.

(** The delta of a record as the specification has it: its content. *)
Definition claimed_delta (data : Py.value) : option string :=
  match content_of data with
  | Some (Py.Str c) => Some c
  | _ => None
  end.

Definition claimed_deltas (ls : list string) : list string :=
  omap claimed_delta (upto_done (records ls)).

(** The specification's stream client on the lines [ls]: one chunk per
    delta, then the concatenation of the deltas as the result. *)
Definition claimed_run (ls : list string) : list signal :=
  [typing_signal true]
  ++ map response_chunk (claimed_deltas ls)
  ++ [full_response (concat (claimed_deltas ls)); typing_signal false].

(** The delta of a record when the empty content counts for nothing. *)
Definition delta (data : Py.value) : option string :=
  match content_of data with
  | Some (Py.Str c) => if String.eqb c "" then None else Some c
  | _ => None
  end.

Definition deltas (ls : list string) : list string :=
  omap delta (upto_done (records ls)).

(** The content of the record, if any, is a [str] or counts as false. *)
Definition str_content (data : Py.value) : bool :=
  match content_of data with
  | Some (Py.Str _) => true
  | Some v => negb (Py.truthy v)
  | None => true
  end.

End Claimed.

(** Every character of [s] is white space. *)
Fixpoint all_space (s : string) : bool :=
  match s with
  | EmptyString => true
  | String c s' => Py.isspace c && all_space s'
  end.

(** The messages of the session dict [r]. *)
Definition log (r : nat) (a : App) : list Message.t :=
  match sessions a !! r with
  | Some s => Session.messages s
  | None => []
  end.

Definition user (text : string) : Message.t :=
  {| Message.role := "user"; Message.content := text |}.

Definition assistant (text : string) : Message.t :=
  {| Message.role := "assistant"; Message.content := text |}.

(** The states the window can be in: [__init__], then events. *)
Definition reachable (json_loads : string -> option Py.value) (a : App)
  : Prop :=
  exists model cid evs, steps json_loads evs (init model cid) = Some a.

(** ** Runs of the window *)

(** After [__init__] with the model X loaded. *)
Definition fresh : App := init (Some "X") "c0".

(** The user types [text] and clicks Send. *)
Definition say (text : string) : list event := [Typed text; SendClicked].

(** The thread of worker [w] starts, gets a 2xx response and reads [ls]. *)
Definition reads (w : nat) (ls : list string) : list event :=
  Thread w Begins :: Thread w PostReturns
  :: map (fun l => Thread w (LineArrives l)) ls.

(** The GUI thread handles [n] queued signals. *)
Definition handle (n : nat) : list event := replicate n Handled.

(** The scenario of the specification: Hello, answered by two deltas and
    the closing record; the five signals of the worker are handled. *)
Definition hello_run : list event :=
  say "Hello"
  ++ reads 0 [content_line (quoted "Hi"); content_line (quoted " there");
              done_line]
  ++ handle 5.

(** A is sent and its stream has delivered one delta when B is sent; the
    thread of A then meets its next line, and its signals are handled. *)
Definition superseded_run : list event :=
  say "A"
  ++ reads 0 [content_line (quoted "Hi")]
  ++ say "B"
  ++ [Thread 0 (LineArrives (content_line (quoted " there")))]
  ++ handle 4.

(** The same, with the stream of B under way when the signals of A are
    handled. *)
Definition late_full_run : list event :=
  say "A"
  ++ reads 0 [content_line (quoted "Hi")]
  ++ say "B"
  ++ reads 1 []
  ++ [Thread 0 (LineArrives (content_line (quoted " there")))]
  ++ handle 5.

(** And a third message sent after that. *)
Definition third_send_run : list event := late_full_run ++ say "C".

(** A second chat is opened, A is sent there and its stream has delivered
    one delta. *)
Definition streaming_in_second_chat : list event :=
  [NewChatClicked "c1"]
  ++ say "A"
  ++ reads 0 [content_line (quoted "Hi")].

(** Its two signals are handled; then the first chat is clicked, the
    stream reads its closing record and the two signals of that are
    handled. *)
Definition switched_run : list event :=
  streaming_in_second_chat
  ++ handle 2
  ++ [ChatClicked 1; Thread 0 (LineArrives done_line)]
  ++ handle 2.

(** A second chat is opened, A is sent there, its stream delivers one
    delta and the signals are handled; then the first chat is clicked and
    the stream delivers its next delta. *)
Definition delta_after_switch : list event :=
  streaming_in_second_chat
  ++ handle 2
  ++ [ChatClicked 1; Thread 0 (LineArrives (content_line (quoted " there")))].

(** The same, with the New Chat button in place of the click. *)
Definition delta_after_new_chat : list event :=
  streaming_in_second_chat
  ++ handle 2
  ++ [NewChatClicked "c2";
      Thread 0 (LineArrives (content_line (quoted " there")))].

(** The stream of B is under way when the signals of the superseded
    stream of A are handled; then B delivers its first delta. *)
Definition delta_after_late_full : list event :=
  late_full_run ++ [Thread 1 (LineArrives (content_line (quoted "Yes")))].

(** A text of 45 characters. *)
Definition long_text : string :=
  "The quick brown fox jumps over the lazy dog..".

(** Hello is sent and its stream has delivered one delta when the
    connection breaks. *)
Definition broken_run : list event :=
  say "Hello"
  ++ reads 0 [content_line (quoted "Hi")]
  ++ [Thread 0 (StreamBreaks "connection reset")].

(** The texts of the pages whose extraction did not raise. *)
Fixpoint page_texts (ps : list page) : list string :=
  match ps with
  | [] => []
  | ExtractRaises :: ps' => page_texts ps'
  | ExtractNone :: ps' => "" :: page_texts ps'
  | Extracted t :: ps' => t :: page_texts ps'
  end.

(** A text file, a .pdf file of four pages, the second of which cannot be
    read and the third of which has no text, and a file of another kind. *)
Definition text_file : file :=
  {| ext := ".txt"; read := inl "as it is";
     paragraphs := inr "not a docx"; pages := inr "not a pdf" |}.

Definition four_pages : file :=
  {| ext := ".pdf"; read := inr "not text"; paragraphs := inr "not a docx";
     pages := inl [Extracted "one"; ExtractRaises; ExtractNone;
                   Extracted "two"] |}.

Definition odt_file : file :=
  {| ext := ".odt"; read := inl "text";
     paragraphs := inr "not a docx"; pages := inr "not a pdf" |}.

(** A .docx file with two paragraphs. *)
Definition two_paragraphs : file :=
  {| ext := ".docx"; read := inr "not text";
     paragraphs := inl ["one"; "two"]; pages := inr "not a pdf" |}.

(** A session dict later on: the same id, the old messages first. *)
Definition session_extends (s s' : Session.t) : Prop :=
  Session.id s' = Session.id s
  /\ Session.messages s `prefix_of` Session.messages s'.

(** Every session dict is still there and has only grown. *)
Definition store_extends (st st' : list Session.t) : Prop :=
  forall r s, st !! r = Some s ->
              exists s', st' !! r = Some s' /\ session_extends s s'.

(** No session has got a title of its own. *)
Definition titles_default (a : App) : Prop :=
  Forall (fun s => Session.title s = "New Chat") (sessions a).

(** How the [try] block of [run] ends on the response [r]. *)
Definition result (json_loads : string -> option Py.value) (r : response)
  : outcome :=
  match r with
  | Refused e => Failed e
  | Opened ls broken => fst (for_lines json_loads ls broken "")
  end.

Definition is_chunk (s : signal) : bool :=
  match s with
  | response_chunk _ => true
  | _ => false
  end.

(** A worker thread from one move to the next, until it has returned. *)
Fixpoint drive (json_loads : string -> option Py.value)
  (msgs : list Message.t) (evs : list net_event) (w : Worker.t)
  : Worker.t * list signal :=
  match evs with
  | [] => (w, [])
  | ev :: evs' =>
      match thread_step json_loads msgs ev w with
      | Some (w', out) =>
          let '(w'', out') := drive json_loads msgs evs' w' in
          (w'', out ++ out')
      | None => (w, [])
      end
  end.

(** The moves of a thread that is answered with the lines [ls]. *)
Definition answered (ls : list string) : list net_event :=
  Begins :: PostReturns :: map LineArrives ls ++ [StreamEnds].

(** ** load_models *)

(** What the status label is set to. *)
Inductive status :=
| Online            (* models loaded *)
| NoModels          (* no models found *)
| Offline.          (* the request, the decoding or the filling raised *)

(** [for m in v]: the items a loop over [v] meets, [None] when [v] cannot
    be iterated. *)
Definition iterate (v : Py.value) : option (list Py.value) :=
  match v with
  | Py.List l => Some l
  | Py.Dict d => Some (map (fun kv => Py.Str (fst kv)) d)
  | Py.Str s => Some (map (fun c => Py.Str (String c "")) (list_ascii_of_string s))
  | _ => None
  end.

(** [m.get("name")]; [None] is the [AttributeError] of a value that is no
    dict. *)
Definition name_of (m : Py.value) : option Py.value :=
  match m with
  | Py.Dict d => Some (match Py.get "name" d with
                       | Some v => v
                       | None => Py.None_
                       end)
  | _ => None
  end.

(** [[m.get("name") for m in ms if m.get("name")]] *)
Fixpoint names_of (ms : list Py.value) : option (list Py.value) :=
  match ms with
  | [] => Some []
  | m :: ms' =>
      n ← name_of m;
      ns ← names_of ms';
      Some (if Py.truthy n then n :: ns else ns)
  end.

(** The items as [addItems] takes them: every one a [str], or it raises. *)
Fixpoint as_strings (vs : list Py.value) : option (list string) :=
  match vs with
  | [] => Some []
  | Py.Str s :: vs' => ss ← as_strings vs'; Some (s :: ss)
  | _ :: vs' => None
  end.

(** Line 222: [None] when anything raises. *)
Definition model_names (data : Py.value) : option (list Py.value) :=
  match data with
  | Py.Dict d =>
      ms ← iterate (match Py.get "models" d with
                    | Some v => v
                    | None => Py.List []
                    end);
      names_of ms
  | _ => None
  end.

(** [load_models]: the items of the dropdown, [self.current_model] and
    the status afterwards. [reply] is the decoded body of the answer to
    [GET /api/tags], [None] when the request or the decoding raised. *)
Definition load_models (reply : option Py.value)
  : list string * option string * status :=
  match reply ≫= model_names with
  | Some [] => ([], None, NoModels)
  | Some models =>
      match as_strings models with
      | Some (m :: ms) => (m :: ms, Some m, Online)
      | _ => ([], None, Offline)
      end
  | None => ([], None, Offline)
  end.

(** The window after [load_models]. *)
Definition load_models_app (reply : option Py.value) (a : App) : App :=
  set_current_model (snd (fst (load_models reply))) a.

(** ** Runs and their ids *)

(** The ids [uuid4] handed out to the chats that the events open. *)
Fixpoint new_ids (evs : list event) : list string :=
  match evs with
  | [] => []
  | NewChatClicked cid :: evs' => cid :: new_ids evs'
  | _ :: evs' => new_ids evs'
  end.




(** The texts of the chunks among the signals [out]. *)
Definition chunk_texts (out : list signal) : list string :=
  omap (fun s => match s with response_chunk c => Some c | _ => None end) out.

(** The reply of a server with two models and an entry without a name. *)
Definition two_models : Py.value :=
  Py.Dict [("models",
            Py.List [Py.Dict [("name", Py.Str "llama3"); ("size", Py.Int 4)];
                     Py.Dict [("size", Py.Int 1)];
                     Py.Dict [("name", Py.Str "mistral")]])].



(** What [_format_html] makes of one character. *)
Definition escape_char (x : ascii) : string :=
  if Ascii.eqb x "<" then "&lt;"
  else if Ascii.eqb x ">" then "&gt;"
  else if Ascii.eqb x line_feed then "<br>"
  else String x "".

(** The name an entry of the model list stands for: the empty string when
    it has none. *)
Definition entry_name (m : Py.value) (n : string) : Prop :=
  exists d, m = Py.Dict d
            /\ match Py.get "name" d with
               | Some (Py.Str s) => n = s
               | None => n = ""
               | _ => False
               end.

(** The session ids in the order the sessions were created. *)
Definition ids (a : App) : list string := map Session.id (sessions a).

(** Everything but the contents of the sessions is the same. *)
Definition same_frame (a a' : App) : Prop :=
  ids a' = ids a
  /\ chat_sessions a' = chat_sessions a
  /\ current_session_id a' = current_session_id a
  /\ workers a' = workers a
  /\ ollama_worker a' = ollama_worker a
  /\ queue a' = queue a.

(** A worker later in its life. *)
Definition worker_later (w w' : Worker.t) : Prop :=
  Worker.model w' = Worker.model w
  /\ Worker.messages w' = Worker.messages w
  /\ (Worker._running w = false -> Worker._running w' = false)
  /\ (Worker.stage w = Finished ->
      Worker.stage w' = Finished /\ Worker.full w' = Worker.full w).

(** * Properties *)

(** ** Strings *)

Example init_is_first_chat (model : option string) (cid : string) :
  start_new_chat true cid (blank model) = Some (init model cid).
Proof. reflexivity. Qed.

Lemma append_cons (c : ascii) (s t : string) :
  String c s +:+ t = String c (s +:+ t).
Proof. reflexivity. Qed.

Lemma append_nil_r (s : string) : s +:+ "" = s.
Proof.
  induction s as [|c s IH]; [reflexivity|].
  now rewrite append_cons, IH.
Qed.

Lemma append_assoc (s t u : string) : (s +:+ t) +:+ u = s +:+ (t +:+ u).
Proof.
  induction s as [|c s IH]; [reflexivity|].
  now rewrite !append_cons, IH.
Qed.

Lemma eqb_empty_false (c : string) : c <> "" -> String.eqb c "" = false.
Proof. intros H. now apply String.eqb_neq. Qed.

(** ** The stream worker *)

Section WorkerFacts.

Variable json_loads : string -> option Py.value.

(** On a record whose content is a [str] or false, the [message] branch
    adds the delta of the record to [full] and emits it. *)
Lemma take_content_delta (data : Py.value) (full : string) :
  str_content data = true ->
  take_content data full
  = inr (full +:+ from_option (fun c => c) "" (delta data),
         map response_chunk (option_list (delta data))).
Proof.
  unfold str_content, delta, content_of, take_content.
  destruct data as [ | | | | | |d]; simpl;
    try (intros _; now rewrite append_nil_r).
  destruct (Py.get "message" d) as [[ | | | | | |m]|]; simpl;
    try (intros _; now rewrite append_nil_r).
  destruct (Py.get "content" m) as [v|]; simpl;
    [|intros _; now rewrite append_nil_r].
  destruct v; simpl; intros H;
    try (apply negb_true_iff in H; simpl in H; rewrite H; simpl;
         now rewrite append_nil_r).
  - now rewrite append_nil_r.
  - destruct (String.eqb s "") eqn:E; simpl; [now rewrite append_nil_r|].
    reflexivity.
Qed.

(** The loop of a worker that is not stopped, from any value of [full]:
    it adds the deltas of the records it reads, in order, and emits each. *)
Lemma for_lines_deltas (ls : list string) (full : string) :
  Forall (fun r => str_content r = true) (upto_done (records json_loads ls)) ->
  for_lines json_loads (unstopped ls) None full
  = (Emitted (full +:+ concat (deltas json_loads ls)),
     map response_chunk (deltas json_loads ls)).
Proof.
  revert full. induction ls as [|l ls IH]; intros full H.
  - simpl. now rewrite append_nil_r.
  - unfold deltas, records in *. simpl in *. unfold loop_body. simpl.
    destruct (String.eqb l "") eqn:El; [now rewrite (IH _ H)|].
    destruct (json_loads l) as [data|] eqn:Ej; [|now rewrite (IH _ H)].
    simpl in H. destruct (is_done data) eqn:Ed.
    + inversion H as [|? ? Hd _]; subst.
      rewrite (take_content_delta _ _ Hd). simpl. rewrite Ed. simpl.
      destruct (delta data); simpl; now rewrite ?append_nil_r.
    + inversion H as [|? ? Hd H']; subst.
      rewrite (take_content_delta _ _ Hd). rewrite (IH _ H'). simpl.
      rewrite Ed. simpl.
      destruct (delta data); simpl; [|now rewrite append_nil_r].
      now rewrite append_assoc.
Qed.

(** C6, as amended. A worker that nobody stops, on lines whose records
    have a [str] or a false value as content: empty lines and lines that
    do not decode are skipped, every non-empty content up to the first
    record with a true [done] is emitted as a chunk, in order, and the
    text handed to [full_response] is the concatenation of those chunks. *)
Theorem stream_client_deltas (ls : list string) :
  Forall (fun r => str_content r = true) (upto_done (records json_loads ls)) ->
  run json_loads (Opened (unstopped ls) None)
  = [typing_signal true]
    ++ map response_chunk (deltas json_loads ls)
    ++ [full_response (concat (deltas json_loads ls)); typing_signal false].
Proof.
  intros H. unfold run. rewrite (for_lines_deltas ls "" H).
  simpl. now rewrite <- app_assoc.
Qed.

(** C10. A record with a non-empty content and a true [done] has its
    content emitted and added to the result before the loop ends; a record
    with the empty string as content emits nothing and leaves the
    accumulated text as it was. *)
Theorem content_then_done :
  (forall line d m c rest broken full,
     line <> "" -> c <> "" ->
     json_loads line = Some (Py.Dict d) ->
     Py.get "message" d = Some (Py.Dict m) ->
     Py.get "content" m = Some (Py.Str c) ->
     Py.get "done" d = Some (Py.Bool true) ->
     loop_body json_loads true line full
     = (Break, full +:+ c, [response_chunk c])
     /\ for_lines json_loads ((true, line) :: rest) broken full
        = (Emitted (full +:+ c), [response_chunk c]))
  /\ (forall line d m full,
        line <> "" ->
        json_loads line = Some (Py.Dict d) ->
        Py.get "message" d = Some (Py.Dict m) ->
        Py.get "content" m = Some (Py.Str "") ->
        loop_body json_loads true line full
        = (if is_done (Py.Dict d) then Break else Continue, full, [])).
Proof.
  split.
  - intros line d m c rest broken full Hl Hc Hj Hm Hcont Hdone.
    assert (loop_body json_loads true line full
            = (Break, full +:+ c, [response_chunk c])) as Hb.
    { unfold loop_body. simpl. rewrite (eqb_empty_false _ Hl), Hj.
      unfold take_content, is_done. rewrite Hm, Hcont, Hdone. simpl.
      now rewrite (eqb_empty_false _ Hc). }
    split; [exact Hb|]. simpl. now rewrite Hb.
  - intros line d m full Hl Hj Hm Hcont.
    unfold loop_body. simpl. rewrite (eqb_empty_false _ Hl), Hj.
    unfold take_content. rewrite Hm, Hcont. simpl.
    now destruct (match Py.get "done" d with Some v => Py.truthy v | None => false end).
Qed.

End WorkerFacts.

(** The lines of a small stream: two deltas, an empty line, a line that is
    not JSON, the closing record, and a record nobody reads. *)
Example demo_stream_decodes :
  deltas Json.loads
    [content_line (quoted "Hi"); ""; "not json";
     content_line (quoted " there"); done_line; content_line (quoted "late")]
  = ["Hi"; " there"].
Proof. reflexivity. Qed.

Lemma stream_client_deltas_witness :
  let ls := [content_line (quoted "Hi"); ""; "not json";
             content_line (quoted " there"); done_line;
             content_line (quoted "late")] in
  Forall (fun r => str_content r = true) (upto_done (records Json.loads ls))
  /\ run Json.loads (Opened (unstopped ls) None)
     = [typing_signal true; response_chunk "Hi"; response_chunk " there";
        full_response "Hi there"; typing_signal false].
Proof.
  intros ls.
  assert (Forall (fun r => str_content r = true)
            (upto_done (records Json.loads ls))) as H
    by (vm_compute; repeat constructor).
  split; [exact H|].
  exact (stream_client_deltas Json.loads ls H).
Defined.

(** C6 as the specification states it fails twice: a record whose content
    is the empty string yields no chunk, and a record whose content is a
    number ends the stream with an error instead of a result. *)
Lemma stream_client_counterexample :
  (run Json.loads (Opened (unstopped [content_line (quoted ""); done_line]) None)
   = [typing_signal true; full_response ""; typing_signal false]
   /\ claimed_run Json.loads [content_line (quoted ""); done_line]
      = [typing_signal true; response_chunk ""; full_response "";
         typing_signal false])
  /\ (run Json.loads (Opened (unstopped [content_line "5"; done_line]) None)
      = [typing_signal true;
         error_occurred ("can only concatenate str (not " +:+ quoted "int"
                         +:+ ") to str");
         typing_signal false]
      /\ claimed_run Json.loads [content_line "5"; done_line]
         = [typing_signal true; full_response ""; typing_signal false]).
Proof. repeat split. Qed.

Lemma content_then_done_witness :
  (loop_body Json.loads true (last_line (quoted "Hi")) "so far: "
   = (Break, "so far: Hi", [response_chunk "Hi"])
   /\ for_lines Json.loads
        [(true, last_line (quoted "Hi")); (true, content_line (quoted "late"))]
        None "so far: "
      = (Emitted "so far: Hi", [response_chunk "Hi"]))
  /\ loop_body Json.loads true (content_line (quoted "")) "so far: "
     = (Continue, "so far: ", []).
Proof.
  split.
  - apply (proj1 (content_then_done Json.loads)
             (last_line (quoted "Hi"))
             [("message", Py.Dict [("content", Py.Str "Hi")]);
              ("done", Py.Bool true)]
             [("content", Py.Str "Hi")] "Hi");
      solve [reflexivity | discriminate].
  - apply (proj2 (content_then_done Json.loads)
             (content_line (quoted ""))
             [("message", Py.Dict [("content", Py.Str "")])]
             [("content", Py.Str "")] "so far: ");
      solve [reflexivity | discriminate].
Defined.

(** ** White space *)

Lemma lstrip_all_space (s : string) : all_space s = true -> Py.lstrip s = "".
Proof.
  induction s as [|c s IH]; simpl; [reflexivity|].
  intros H. apply andb_true_iff in H as [Hc Hs]. rewrite Hc. now apply IH.
Qed.

Lemma lstrip_not_all_space (s : string) :
  all_space s = false ->
  exists c t, Py.lstrip s = String c t /\ Py.isspace c = false.
Proof.
  induction s as [|c s IH]; simpl; [discriminate|].
  destruct (Py.isspace c) eqn:Hc; simpl; [exact IH|].
  intros _. now exists c, s.
Qed.

Lemma all_space_rev_app (s t : string) :
  all_space (String.rev_app s t) = all_space s && all_space t.
Proof.
  revert t. induction s as [|c s IH]; intros t; simpl; [reflexivity|].
  rewrite IH. simpl. destruct (Py.isspace c), (all_space s), (all_space t);
    reflexivity.
Qed.

Lemma rev_app_empty (s t : string) :
  String.rev_app s t = "" -> s = "" /\ t = "".
Proof.
  revert t. induction s as [|c s IH]; intros t; simpl; [now split|].
  intros H. apply IH in H as [_ H]. discriminate.
Qed.

(** [strip] returns the empty string on white space, and only there. *)
Lemma strip_empty (s : string) : Py.strip s = "" <-> all_space s = true.
Proof.
  split.
  - intros H. destruct (all_space s) eqn:E; [reflexivity|exfalso].
    destruct (lstrip_not_all_space s E) as (c & t & Hl & Hc).
    unfold Py.strip, Py.rstrip, String.rev in H. rewrite Hl in H.
    apply rev_app_empty in H as [H _].
    assert (all_space (String.rev_app (String c t) "") = false) as Hr.
    { rewrite all_space_rev_app. simpl. now rewrite Hc. }
    destruct (all_space (String.rev_app (String c t) "")) eqn:E2;
      [discriminate|].
    destruct (lstrip_not_all_space _ E2) as (c' & t' & Hl' & _).
    rewrite Hl' in H. discriminate.
  - intros H. unfold Py.strip. now rewrite (lstrip_all_space s H).
Qed.

(** ** The guards of send_message *)

(** C9. A send with an empty or blank compose box, or with no model
    selected, leaves every session, every worker, the worker slot and the
    queue as they were. With a blank box nothing changes at all; with text
    and no model the only change is the notice that is shown. *)
Theorem send_message_guards (a : App) :
  all_space (input_box a) = true \/ selected_model a = None ->
  exists a',
    send_message a = Some a'
    /\ sessions a' = sessions a
    /\ workers a' = workers a
    /\ ollama_worker a' = ollama_worker a
    /\ queue a' = queue a
    /\ (all_space (input_box a) = true -> a' = a)
    /\ (all_space (input_box a) = false ->
        a' = _show_system "Select a model first" a
        /\ shown a' = shown a ++ ["Select a model first"]
        /\ input_box a' = input_box a
        /\ current_model a' = current_model a
        /\ chat_sessions a' = chat_sessions a
        /\ current_session_id a' = current_session_id a).
Proof.
  intros H. unfold send_message.
  destruct (all_space (input_box a)) eqn:E.
  - apply strip_empty in E. rewrite E. simpl.
    exists a. repeat split; first [reflexivity | discriminate].
  - destruct H as [H|H]; [discriminate|].
    destruct (String.eqb (Py.strip (input_box a)) "") eqn:Es.
    + apply String.eqb_eq, strip_empty in Es. congruence.
    + rewrite H. exists (_show_system "Select a model first" a).
      repeat split; first [reflexivity | discriminate].
Qed.

Lemma send_message_guards_witness :
  let blank := set_input_box "   " (init (Some "X") "c0") in
  let no_model := set_input_box "Hello" (init None "c0") in
  send_message blank = Some blank
  /\ send_message no_model
     = Some (addWidget (SystemBubble "Select a model first")
               (set_shown ["Select a model first"] no_model)).
Proof.
  intros blank no_model. split.
  - destruct (send_message_guards blank (or_introl eq_refl))
      as (a' & Hs & _ & _ & _ & _ & Hb & _).
    rewrite Hs. f_equal. exact (Hb eq_refl).
  - destruct (send_message_guards no_model (or_intror eq_refl))
      as (a' & Hs & _ & _ & _ & _ & _ & Hn).
    rewrite Hs. f_equal. exact (proj1 (Hn eq_refl)).
Defined.

(** ** The session store *)

(** The slot [on_chunk], when it does not raise, writes to its label
    only. *)
Lemma on_chunk_slot_inv (w : nat) (c : string) (a a' : App) :
  on_chunk_slot w c a = Some a' -> exists ls, a' = set_labels ls a.
Proof.
  unfold on_chunk_slot. destruct (labels a !! w) as [l|]; [|discriminate].
  cbn [mbind option_bind].
  destruct (Label.state l); [| |discriminate]; intros [= <-]; now eexists.
Qed.

(** A slot that leaves the sessions, the workers and the queue alone. *)
Ltac slot_same :=
  first [ intros [= <-]
        | let H := fresh in
          let ls := fresh "ls" in
          intros H; apply on_chunk_slot_inv in H as [ls ->] ].

Lemma first_with_id_alter (f : Session.t -> Session.t) (r : nat)
  (store : list Session.t) (cid : option string) (refs : list nat) :
  (forall s, Session.id (f s) = Session.id s) ->
  first_with_id (alter f r store) cid refs = first_with_id store cid refs.
Proof.
  intros Hf. induction refs as [|r' refs IH]; simpl; [reflexivity|].
  rewrite list_lookup_alter. destruct (decide (r = r')) as [->|Hne].
  - destruct (store !! r') as [s|]; simpl; [|reflexivity].
    rewrite Hf, IH. reflexivity.
  - destruct (store !! r') as [s|]; simpl; [|reflexivity].
    now rewrite IH.
Qed.

Lemma first_with_id_Some (store : list Session.t) (cid : option string)
  (refs : list nat) (r : nat) :
  first_with_id store cid refs = Some r ->
  exists s, store !! r = Some s /\ Some (Session.id s) = cid.
Proof.
  induction refs as [|r' refs IH]; simpl; [discriminate|].
  destruct (store !! r') as [s|] eqn:E; [|discriminate].
  destruct (bool_decide (Some (Session.id s) = cid)) eqn:Eb.
  - intros [= <-]. exists s. split; [exact E|].
    now apply bool_decide_eq_true in Eb.
  - exact IH.
Qed.

Lemma get_session_append (r : nat) (m : Message.t) (a : App) :
  _get_session (append_message r m a) = _get_session a.
Proof.
  unfold _get_session, append_message. simpl.
  now apply first_with_id_alter.
Qed.

Lemma get_session_lookup (a : App) (r : nat) :
  _get_session a = Some r -> exists s, sessions a !! r = Some s.
Proof.
  intros H. destruct (first_with_id_Some _ _ _ _ H) as (s & Hs & _).
  now exists s.
Qed.

Lemma log_append_eq (r : nat) (m : Message.t) (a : App) :
  is_Some (sessions a !! r) ->
  log r (append_message r m a) = log r a ++ [m].
Proof.
  intros [s Hs]. unfold log, append_message. simpl.
  rewrite list_lookup_alter_eq, Hs. reflexivity.
Qed.

Lemma log_append_ne (r r' : nat) (m : Message.t) (a : App) :
  r <> r' -> log r' (append_message r m a) = log r' a.
Proof.
  intros H. unfold log, append_message. simpl.
  now rewrite list_lookup_alter_ne.
Qed.

Lemma count_user_app (ms ms' : list Message.t) :
  count_user (ms ++ ms') = count_user ms + count_user ms'.
Proof. unfold count_user. now rewrite list.filter_app, length_app. Qed.

(** [_render_message] only appends, unless the message is the one user
    message of the session. *)
Lemma render_appends (role text : string) (a : App) (r : nat) :
  _get_session a = Some r ->
  role <> "user" \/ count_user (log r a) <> 0 ->
  _render_message role text false a
  = Some (addWidget (Bubble role text)
            (append_message r {| Message.role := role; Message.content := text |} a)).
Proof.
  intros Hr Hc. unfold _render_message. rewrite Hr. simpl.
  destruct (get_session_lookup a r Hr) as [s Hs].
  rewrite list_lookup_alter_eq, Hs. simpl.
  destruct Hc as [Hc|Hc].
  - now rewrite (bool_decide_eq_false_2 _ Hc).
  - assert (count_user (Session.messages s) <> 0) as Hc'
      by (unfold log in Hc; now rewrite Hs in Hc).
    rewrite count_user_app.
    destruct (bool_decide (role = "user")) eqn:Eu; [|reflexivity].
    apply bool_decide_eq_true in Eu. subst role. simpl.
    destruct (count_user (Session.messages s)) as [|n]; [congruence|].
    replace (S n + count_user [{| Message.role := "user";
                                  Message.content := text |}] =? 1)
      with false; [reflexivity|].
    symmetry. apply Nat.eqb_neq. unfold count_user. simpl. lia.
Qed.

(** What [send_message] comes to once both guards are passed. *)
Lemma send_message_sends (a : App) (text model : string) (r : nat) :
  Py.strip (input_box a) = text -> text <> "" ->
  selected_model a = Some model ->
  _get_session a = Some r ->
  send_message a
  = Some (let a4 := supersede
                      (add_placeholder
                         (set_input_box ""
                            (addWidget (Bubble "user" text)
                               (append_message r (user text)
                                  (append_message r (user text) a))))) in
          set_ollama_worker (Some (length (workers a4)))
            (set_workers (workers a4 ++ [Worker.init model r]) a4)).
Proof.
  intros Ht Hne Hm Hr. unfold send_message. rewrite Ht, Hm, Hr.
  rewrite (eqb_empty_false _ Hne). cbn [mbind option_bind]. fold (user text).
  rewrite (render_appends "user" text (append_message r (user text) a) r).
  - reflexivity.
  - now rewrite get_session_append.
  - right. rewrite log_append_eq by now apply get_session_lookup.
    rewrite count_user_app. unfold count_user at 2. simpl. lia.
Qed.

Lemma log_supersede (r : nat) (a : App) : log r (supersede a) = log r a.
Proof. unfold supersede. now destruct (ollama_worker a). Qed.

(** C5, on the code: a send that passes the guards appends the user
    message to the log of the current session twice, once in
    [send_message] and once more in [_render_message], and leaves the
    other logs alone. *)
Theorem send_message_appends_twice (a : App) (text model : string) (r : nat) :
  Py.strip (input_box a) = text -> text <> "" ->
  selected_model a = Some model ->
  _get_session a = Some r ->
  exists a',
    send_message a = Some a'
    /\ log r a' = log r a ++ [user text; user text]
    /\ (forall r', r' <> r -> log r' a' = log r' a).
Proof.
  intros Ht Hne Hm Hr. eexists. split.
  { exact (send_message_sends a text model r Ht Hne Hm Hr). }
  pose proof (get_session_lookup a r Hr) as Hs.
  assert (is_Some (sessions (append_message r (user text) a) !! r)) as Hs'.
  { unfold append_message. simpl. rewrite list_lookup_alter_eq.
    destruct Hs as [s ->]. now eexists. }
  split.
  - cbv zeta. change (log r (set_ollama_worker ?x (set_workers ?y ?b)))
      with (log r b).
    rewrite log_supersede.
    change (log r (append_message r (user text) (append_message r (user text) a))
            = log r a ++ [user text; user text]).
    rewrite !log_append_eq by assumption. now rewrite <- app_assoc.
  - intros r' Hne'.
    cbv zeta. change (log r' (set_ollama_worker ?x (set_workers ?y ?b)))
      with (log r' b).
    rewrite log_supersede.
    change (log r' (append_message r (user text) (append_message r (user text) a))
            = log r' a).
    now rewrite !log_append_ne by congruence.
Qed.

Lemma send_message_appends_twice_witness :
  let a := set_input_box " Hello " (init (Some "X") "c0") in
  exists a',
    send_message a = Some a'
    /\ log 0 a' = [user "Hello"; user "Hello"].
Proof.
  intros a.
  destruct (send_message_appends_twice a "Hello" "X" 0)
    as (a' & Hs & Hl & _); [reflexivity | discriminate | reflexivity
                           | reflexivity |].
  exists a'. split; [exact Hs | exact Hl].
Defined.

(** ** Switching chats *)

Lemma set_chat_layout_same (a : App) : set_chat_layout (chat_layout a) a = a.
Proof. now destruct a. Qed.

Lemma render_initial (ms : list Message.t) (a : App) :
  foldl (fun acc m => acc ≫= _render_message (Message.role m)
                                (Message.content m) true)
        (Some a) ms
  = Some (set_chat_layout (chat_layout a ++ bubbles ms) a).
Proof.
  revert a. induction ms as [|m ms IH]; intros a; cbn [foldl].
  - simpl. now rewrite app_nil_r, set_chat_layout_same.
  - change (Some a ≫= _render_message (Message.role m) (Message.content m) true)
      with (Some (addWidget (Bubble (Message.role m) (Message.content m)) a)).
    rewrite IH. simpl. now rewrite <- app_assoc.
Qed.

(** [_on_chat_selected] on the chat that is shown, and on another one. *)
Lemma on_chat_selected_eq (cid : string) (a a' : App) :
  _on_chat_selected cid a = Some a' ->
  (current_session_id a = Some cid /\ a' = a)
  \/ (current_session_id a <> Some cid
      /\ exists r,
           first_with_id (sessions a) (Some cid) (chat_sessions a) = Some r
           /\ a' = set_chat_layout (bubbles (log r a))
                     (_clear_chat_display
                        (set_current_session_id (Some cid) a))).
Proof.
  unfold _on_chat_selected.
  destruct (bool_decide (Some cid = current_session_id a)) eqn:E.
  - apply bool_decide_eq_true in E. intros [= <-]. now left.
  - apply bool_decide_eq_false in E. unfold _get_session. simpl.
    destruct (first_with_id (sessions a) (Some cid) (chat_sessions a))
      as [r|] eqn:Er; [|discriminate].
    cbn [mbind option_bind].
    destruct (sessions a !! r) as [s|] eqn:Es; [|discriminate].
    cbn [mbind option_bind]. rewrite render_initial.
    intros [= <-]. right. split; [congruence|].
    exists r. split; [reflexivity|]. unfold log. rewrite Es. reflexivity.
Qed.

(** [_on_chat_selected] leaves the stores, the slot and the queue alone. *)
Lemma on_chat_selected_frame (cid : string) (a a' : App) :
  _on_chat_selected cid a = Some a' ->
  current_session_id a' = Some cid
  /\ ollama_worker a' = ollama_worker a
  /\ workers a' = workers a
  /\ queue a' = queue a
  /\ sessions a' = sessions a.
Proof.
  intros H.
  apply on_chat_selected_eq in H as [[Hc ->]|(_ & r & _ & ->)];
    now repeat split.
Qed.

(** C7, as amended. A click on a chat, with a stream under way or not:
    on the chat that is shown it changes nothing; on another chat it makes
    that chat the current one, empties the display, the placeholder row of
    a stream under way included, and draws the messages of the chat. It
    changes nothing else: the worker slot, every worker with its
    [_running] flag and its stage, the queued signals, every session with
    its log, the list of chats, the compose box, the model and the notices
    are as they were, and no worker is told anything. *)
Theorem chat_switch_frame (json_loads : string -> option Py.value)
  (row : nat) (a a' : App) :
  step json_loads (ChatClicked row) a = Some a' ->
  exists r s,
    chat_sessions a !! row = Some r /\ sessions a !! r = Some s
    /\ current_session_id a' = Some (Session.id s)
    /\ ollama_worker a' = ollama_worker a
    /\ workers a' = workers a
    /\ queue a' = queue a
    /\ sessions a' = sessions a
    /\ chat_sessions a' = chat_sessions a
    /\ input_box a' = input_box a
    /\ current_model a' = current_model a
    /\ shown a' = shown a
    /\ (current_session_id a = Some (Session.id s) -> a' = a)
    /\ (current_session_id a <> Some (Session.id s) ->
        exists r',
          _get_session a' = Some r'
          /\ a' = set_chat_layout (bubbles (log r' a))
                    (set_labels (foldl (deleteLater (length (queue a)))
                                       (labels a) (chat_layout a))
                       (set_current_session_id (Some (Session.id s)) a))).
Proof.
  cbn [step].
  destruct (chat_sessions a !! row) as [r|]; [|discriminate].
  cbn [mbind option_bind].
  destruct (sessions a !! r) as [s|] eqn:Es; [|discriminate].
  cbn [mbind option_bind]. intros H. exists r, s.
  apply on_chat_selected_eq in H as [[Hc ->]|(Hc & r' & Hr & ->)].
  - repeat split; try reflexivity; try assumption. congruence.
  - repeat split; try reflexivity; try congruence.
    intros _. exists r'. split; [exact Hr | reflexivity].
Qed.

Lemma chat_switch_frame_witness :
  exists a a',
    steps Json.loads streaming_in_second_chat fresh = Some a
    /\ step Json.loads (ChatClicked 1) a = Some a'
    /\ map Worker.active (workers a) = [true]
    /\ current_session_id a = Some "c1"
    /\ current_session_id a' = Some "c0"
    /\ ollama_worker a' = ollama_worker a
    /\ workers a' = workers a
    /\ queue a' = queue a
    /\ sessions a' = sessions a
    /\ input_box a' = input_box a
    /\ current_model a' = current_model a
    /\ shown a' = shown a
    /\ chat_layout a = [Bubble "assistant" "Hello! How can I help you?";
                        Bubble "user" "A"; PlaceholderRow 0]
    /\ chat_layout a' = []
    /\ map Label.state (labels a) = [Alive]
    /\ map Label.state (labels a') = [Doomed 2].
Proof.
  destruct (steps Json.loads streaming_in_second_chat fresh) as [a|] eqn:Ea;
    [|vm_compute in Ea; discriminate].
  destruct (step Json.loads (ChatClicked 1) a) as [a'|] eqn:Ea'.
  - exists a, a'. split; [reflexivity|]. split; [exact Ea'|].
    destruct (chat_switch_frame Json.loads 1 a a' Ea')
      as (r & s & _ & _ & _ & Ho & Hw & Hq & Hs & _ & Hi & Hm & Hsh & _).
    repeat split; try assumption;
      vm_compute in Ea; injection Ea as <-;
      vm_compute in Ea'; injection Ea' as <-; reflexivity.
  - exfalso. vm_compute in Ea. injection Ea as <-.
    vm_compute in Ea'. discriminate.
Defined.

(** C7 as the specification states it fails: the stream of the second
    chat is active when the first chat is clicked, and after the click
    its worker is still referenced, still running and not stopped; when
    its closing record arrives its text is written to the log of the chat
    it answers and to the log of the chat now shown. *)
Lemma chat_switch_counterexample :
  ((fun a => (ollama_worker a, map Worker._running (workers a),
              map Worker.active (workers a)))
     <$> steps Json.loads (streaming_in_second_chat ++ [ChatClicked 1]) fresh)
  = Some (Some 0, [true], [true])
  /\ ((fun a => (log 0 a, log 1 a)) <$> steps Json.loads switched_run fresh)
     = Some ([assistant "Hi"],
             [assistant "Hello! How can I help you?"; user "A"; user "A";
              assistant "Hi"]).
Proof. split; reflexivity. Qed.

(** ** Runs that show the defects *)

(** A worker that finds [_running] false leaves the loop and hands what it
    has accumulated to [full_response]. *)
Lemma stopped_worker_emits_full (json_loads : string -> option Py.value)
  (line : string) (rest : list (bool * string)) (broken : option string)
  (full : string) :
  for_lines json_loads ((false, line) :: rest) broken full = (Emitted full, []).
Proof. reflexivity. Qed.

(** C1 on the code, cancelled half: message A is superseded by message B
    after one delta; the stopped worker of A still emits [full_response]
    with the text it has, and [on_full] writes that text to the log. *)
Theorem cancelled_stream_commits :
  ((fun a => (map Worker._running (workers a), log 0 a))
     <$> steps Json.loads superseded_run fresh)
  = Some ([false; true],
          [user "A"; user "A"; user "B"; user "B";
           assistant "Hi"; assistant "Hi"]).
Proof. reflexivity. Qed.

(** C2 on the code: the scenario of the specification ends with the
    answer in the log twice, once from [on_full] and once from
    [_render_message]. *)
Theorem done_stream_commits_twice :
  (log 0 <$> steps Json.loads hello_run fresh)
  = Some [user "Hello"; user "Hello";
          assistant "Hi there"; assistant "Hi there"].
Proof. reflexivity. Qed.

(** C3 on the code: the late [on_full] of the superseded worker 0 writes
    its text to the log and clears the slot that holds worker 1, so the
    third send stops nobody: workers 1 and 2 are then both active, on the
    same session. *)
Theorem superseded_stream_clears_slot :
  ((fun a => (ollama_worker a, map Worker.active (workers a)))
     <$> steps Json.loads late_full_run fresh)
  = Some (None, [false; true])
  /\ ((fun a => (ollama_worker a, map Worker.active (workers a),
                 map Worker.messages (workers a), log 0 a))
        <$> steps Json.loads third_send_run fresh)
     = Some (Some 2, [false; true; true], [0; 0; 0],
             [user "A"; user "A"; user "B"; user "B";
              assistant "Hi"; assistant "Hi"; user "C"; user "C"]).
Proof. split; reflexivity. Qed.

(** The placeholder label of a stream is deleted under it in three ways:
    by a click on another chat, by the New Chat button, and by the late
    [on_full] of a superseded worker, which takes the last row of the
    layout, the placeholder of the new stream. In each case the next
    delta of the stream reaches [on_chunk] with its label deleted, and
    the slot raises. *)
Theorem delta_on_deleted_label_raises :
  (queue <$> steps Json.loads delta_after_switch fresh)
  = Some [(0, response_chunk " there")]
  /\ steps Json.loads (delta_after_switch ++ handle 1) fresh = None
  /\ (queue <$> steps Json.loads delta_after_new_chat fresh)
     = Some [(0, response_chunk " there")]
  /\ steps Json.loads (delta_after_new_chat ++ handle 1) fresh = None
  /\ ((fun a => (chat_layout a, queue a))
        <$> steps Json.loads delta_after_late_full fresh)
     = Some ([Bubble "user" "A"; PlaceholderRow 0; Bubble "user" "B";
              Bubble "assistant" "Hi"],
             [(1, response_chunk "Yes")])
  /\ steps Json.loads (delta_after_late_full ++ handle 1) fresh = None.
Proof. repeat split. Qed.

(** C4 on the code: after the first user message the title is still
    the default one, for the text of 10 characters and for the text of 45,
    although [title_of] gives the titles of the specification. *)
Theorem first_message_leaves_title :
  title_of "short text" = "short text"
  /\ String.length long_text = 45
  /\ title_of long_text = "The quick brown fox jumps over..."
  /\ (map Session.title ∘ sessions <$> steps Json.loads (say "short text") fresh)
     = Some ["New Chat"]
  /\ (map Session.title ∘ sessions <$> steps Json.loads (say long_text) fresh)
     = Some ["New Chat"].
Proof. repeat split. Qed.

(** ** load_file *)

Section LoadFileFacts.

Variable docx_installed : bool.
Variable PdfReader_installed : bool.
Variable insert_type_error : string.

(** C8 on the code, the .docx branch: [content] is bound to the method
    ["\n".join] and never to the joined paragraphs, so [insertPlainText]
    raises; whatever the file holds, a notice is shown and nothing is
    inserted. *)
Theorem docx_is_never_inserted (f : file) :
  ext f = ".docx" ->
  (exists msg,
     load_file docx_installed PdfReader_installed insert_type_error (Some f)
     = Show msg)
  /\ (forall ps, docx_installed = true -> paragraphs f = inl ps ->
      load_file docx_installed PdfReader_installed insert_type_error (Some f)
      = Show ("File read error: " +:+ insert_type_error)).
Proof.
  intros He. unfold load_file, read_content. rewrite He. simpl.
  split.
  - destruct docx_installed; simpl; [|now eexists].
    destruct (paragraphs f); now eexists.
  - intros ps -> ->. reflexivity.
Qed.

Lemma extract_pages_texts (ps : list page) (content : string) :
  extract_pages ps content
  = content +:+ concat (map (fun t => t +:+ Py.newline) (page_texts ps)).
Proof.
  revert content. induction ps as [|[| |t] ps IH]; intros content; simpl.
  - now rewrite append_nil_r.
  - apply IH.
  - rewrite IH. now rewrite !append_assoc.
  - rewrite IH. now rewrite !append_assoc.
Qed.

(** The other branches of [load_file]: a .txt file is inserted as read, a
    .pdf file as the texts of its pages that did not raise, each followed
    by a line feed, and any other extension is reported and nothing is
    inserted. *)
Lemma load_file_branches (f : file) :
  (forall text, ext f = ".txt" -> read f = inl text ->
     load_file docx_installed PdfReader_installed insert_type_error (Some f)
     = Insert text)
  /\ (forall ps, ext f = ".pdf" -> PdfReader_installed = true ->
        pages f = inl ps ->
        load_file docx_installed PdfReader_installed insert_type_error (Some f)
        = Insert (concat (map (fun t => t +:+ Py.newline) (page_texts ps))))
  /\ (ext f <> ".txt" -> ext f <> ".docx" -> ext f <> ".pdf" ->
        load_file docx_installed PdfReader_installed insert_type_error (Some f)
        = Show ("Unsupported: " +:+ ext f)).
Proof.
  unfold load_file, read_content. repeat split.
  - intros text -> ->. reflexivity.
  - intros ps -> -> ->. simpl. now rewrite extract_pages_texts.
  - intros H1 H2 H3.
    now rewrite (proj2 (String.eqb_neq _ _) H1),
      (proj2 (String.eqb_neq _ _) H2), (proj2 (String.eqb_neq _ _) H3).
Qed.

(** A notice leaves the compose box as it was. *)
Lemma load_file_shows_keeps_box (picked : option file) (cursor : nat)
  (a : App) (msg : string) :
  load_file docx_installed PdfReader_installed insert_type_error picked = Show msg ->
  input_box (load_file_app docx_installed PdfReader_installed
               insert_type_error picked cursor a) = input_box a.
Proof. unfold load_file_app. now intros ->. Qed.

End LoadFileFacts.

Lemma docx_is_never_inserted_witness :
  load_file true true "not a str" (Some two_paragraphs)
  = Show "File read error: not a str".
Proof.
  exact (proj2 (docx_is_never_inserted true true "not a str" two_paragraphs
                  eq_refl) ["one"; "two"] eq_refl eq_refl).
Defined.

(** ** The log only grows *)

Lemma store_extends_refl (st : list Session.t) : store_extends st st.
Proof. intros r s H. exists s. repeat split; [exact H | reflexivity]. Qed.

Lemma store_extends_trans (st1 st2 st3 : list Session.t) :
  store_extends st1 st2 -> store_extends st2 st3 -> store_extends st1 st3.
Proof.
  intros H12 H23 r s Hs.
  destruct (H12 r s Hs) as (s2 & Hs2 & Hid2 & Hp2).
  destruct (H23 r s2 Hs2) as (s3 & Hs3 & Hid3 & Hp3).
  exists s3. repeat split; [exact Hs3 | congruence |].
  now transitivity (Session.messages s2).
Qed.

Lemma store_extends_alter (f : Session.t -> Session.t) (r : nat)
  (st : list Session.t) :
  (forall s, session_extends s (f s)) -> store_extends st (alter f r st).
Proof.
  intros Hf r' s Hs. rewrite list_lookup_alter.
  destruct (decide (r = r')) as [->|_].
  - rewrite Hs. simpl. eexists. split; [reflexivity | apply Hf].
  - exists s. repeat split; [exact Hs | reflexivity].
Qed.

Lemma store_extends_append (r : nat) (m : Message.t) (a : App) :
  store_extends (sessions a) (sessions (append_message r m a)).
Proof.
  apply store_extends_alter. intros s. split; [reflexivity|].
  now apply prefix_app_r.
Qed.

Lemma render_extends (role text : string) (initial : bool) (a a' : App) :
  _render_message role text initial a = Some a' ->
  store_extends (sessions a) (sessions a').
Proof.
  unfold _render_message. destruct initial.
  { intros [= <-]. apply store_extends_refl. }
  destruct (_get_session a) as [r|]; [|discriminate]. cbn [mbind option_bind].
  set (a1 := append_message r _ a).
  destruct (sessions a1 !! r) as [s|]; [|discriminate].
  cbn [mbind option_bind].
  assert (store_extends (sessions a) (sessions a1)) as H1
    by apply store_extends_append.
  destruct (_ && _); intros [= <-]; [|exact H1].
  eapply store_extends_trans; [exact H1|].
  apply store_extends_alter. intros s0. now split.
Qed.

Section LoopFacts.

Variable json_loads : string -> option Py.value.

(** Whatever happens next, every session keeps its id and its messages,
    in order, and may only get more of them at the end. *)
Lemma step_extends (ev : event) (a a' : App) :
  step json_loads ev a = Some a' ->
  store_extends (sessions a) (sessions a').
Proof.
  destruct ev as [text| |cid|row|name|w e|]; cbn [step].
  - intros [= <-]. apply store_extends_refl.
  - unfold send_message.
    destruct (String.eqb _ _); [intros [= <-]; apply store_extends_refl|].
    destruct (selected_model a) as [model|];
      [|intros [= <-]; apply store_extends_refl].
    destruct (_get_session a) as [r|]; [|discriminate].
    cbn [mbind option_bind].
    set (a1 := append_message r _ a).
    destruct (_render_message "user" _ false a1) as [a2|] eqn:E2;
      [|discriminate].
    cbn [mbind option_bind]. intros [= <-].
    eapply store_extends_trans; [apply store_extends_append|].
    eapply store_extends_trans; [exact (render_extends _ _ _ _ _ E2)|].
    unfold supersede. simpl. destruct (ollama_worker a2);
      apply store_extends_refl.
  - unfold start_new_chat. intros H. apply render_extends in H.
    eapply store_extends_trans; [|exact H]. simpl.
    intros r s Hs. exists s. repeat split; [|reflexivity].
    now apply lookup_app_l_Some.
  - destruct (chat_sessions a !! row) as [r|]; [|discriminate].
    cbn [mbind option_bind].
    destruct (sessions a !! r) as [s|]; [|discriminate].
    cbn [mbind option_bind]. intros H.
    apply on_chat_selected_frame in H as (_ & _ & _ & _ & ->).
    apply store_extends_refl.
  - intros [= <-]. apply store_extends_refl.
  - destruct (workers a !! w) as [wk|]; [|discriminate].
    cbn [mbind option_bind].
    destruct (sessions a !! Worker.messages wk) as [s|]; [|discriminate].
    cbn [mbind option_bind].
    destruct (thread_step _ _ _ _) as [[wk' out]|];
      cbn [mbind option_bind]; [|discriminate].
    intros [= <-]. apply store_extends_refl.
  - destruct (queue a) as [|[w sg] q]; [discriminate|].
    destruct sg as [b|c|t|e]; cbn [slot];
      try (slot_same; apply store_extends_refl).
    unfold on_full.
    destruct (workers _ !! w) as [wk|]; [|discriminate].
    cbn [mbind option_bind].
    set (a1 := append_message _ _ _).
    destruct (_render_message "assistant" t false a1) as [a2|] eqn:E2;
      [|discriminate].
    cbn [mbind option_bind]. intros [= <-]. simpl.
    eapply store_extends_trans; [|exact (render_extends _ _ _ _ _ E2)].
    apply (store_extends_append _ _ (take_last (set_queue q (deferred_deletes a)))).
Qed.

(** The log of every session is append-only along every run of the
    window. *)
Lemma steps_extends (evs : list event) (a a' : App) :
  steps json_loads evs a = Some a' ->
  store_extends (sessions a) (sessions a').
Proof.
  revert a. induction evs as [|ev evs IH]; intros a; simpl.
  - intros [= <-]. apply store_extends_refl.
  - destruct (step json_loads ev a) as [a1|] eqn:E1; [|discriminate].
    cbn [mbind option_bind]. intros H.
    eapply store_extends_trans; [exact (step_extends _ _ _ E1) | now apply IH].
Qed.

End LoopFacts.

(** ** The title is never set *)

Lemma titles_default_eq (a a' : App) :
  sessions a' = sessions a -> titles_default a -> titles_default a'.
Proof. unfold titles_default. now intros ->. Qed.

Lemma titles_default_append (r : nat) (m : Message.t) (a : App) :
  titles_default a -> titles_default (append_message r m a).
Proof.
  unfold titles_default, append_message. simpl. intros H.
  apply Forall_alter; [exact H|]. now intros s _ Hs.
Qed.

Lemma titles_default_supersede (a : App) :
  titles_default a -> titles_default (supersede a).
Proof. unfold supersede. now destruct (ollama_worker a). Qed.

Lemma send_message_titles (a a' : App) :
  send_message a = Some a' -> titles_default a -> titles_default a'.
Proof.
  intros Hs Ht.
  destruct (String.eqb (Py.strip (input_box a)) "") eqn:Ee.
  { unfold send_message in Hs. rewrite Ee in Hs. now injection Hs as <-. }
  destruct (selected_model a) as [model|] eqn:Em.
  2:{ unfold send_message in Hs. rewrite Ee, Em in Hs. now injection Hs as <-. }
  destruct (_get_session a) as [r|] eqn:Er.
  2:{ unfold send_message in Hs. rewrite Ee, Em, Er in Hs. discriminate. }
  apply String.eqb_neq in Ee.
  rewrite (send_message_sends a _ model r eq_refl Ee Em Er) in Hs.
  injection Hs as <-. cbv zeta.
  eapply titles_default_eq; [reflexivity|].
  apply titles_default_supersede.
  eapply titles_default_eq; [reflexivity|].
  now do 2 apply titles_default_append.
Qed.

Lemma render_assistant_titles (text : string) (a a' : App) :
  _render_message "assistant" text false a = Some a' ->
  titles_default a -> titles_default a'.
Proof.
  intros Hr Ht. destruct (_get_session a) as [r|] eqn:Er.
  - rewrite (render_appends "assistant" text a r Er) in Hr
      by (left; discriminate).
    injection Hr as <-. now apply titles_default_append.
  - unfold _render_message in Hr. rewrite Er in Hr. discriminate.
Qed.

Section TitleFacts.

Variable json_loads : string -> option Py.value.

Lemma step_titles (ev : event) (a a' : App) :
  step json_loads ev a = Some a' -> titles_default a -> titles_default a'.
Proof.
  destruct ev as [text| |cid|row|name|w e|]; cbn [step].
  - now intros [= <-].
  - apply send_message_titles.
  - unfold start_new_chat. intros H Ht.
    apply render_assistant_titles in H; [exact H|].
    unfold titles_default in *. simpl. apply Forall_app. split; [exact Ht|].
    now constructor.
  - destruct (chat_sessions a !! row) as [r|]; [|discriminate].
    cbn [mbind option_bind].
    destruct (sessions a !! r) as [s|]; [|discriminate].
    cbn [mbind option_bind]. intros H.
    apply on_chat_selected_frame in H as (_ & _ & _ & _ & H).
    now apply titles_default_eq.
  - now intros [= <-].
  - destruct (workers a !! w) as [wk|]; [|discriminate].
    cbn [mbind option_bind].
    destruct (sessions a !! Worker.messages wk) as [s|]; [|discriminate].
    cbn [mbind option_bind].
    destruct (thread_step _ _ _ _) as [[wk' out]|];
      cbn [mbind option_bind]; [|discriminate].
    now intros [= <-].
  - destruct (queue a) as [|[w sg] q]; [discriminate|].
    destruct sg as [b|c|t|e]; cbn [slot]; try (now slot_same).
    unfold on_full.
    destruct (workers _ !! w) as [wk|]; [|discriminate].
    cbn [mbind option_bind].
    set (a1 := append_message _ _ _).
    destruct (_render_message "assistant" t false a1) as [a2|] eqn:E2;
      [|discriminate].
    cbn [mbind option_bind]. intros [= <-] Ht.
    eapply titles_default_eq; [reflexivity|].
    apply (render_assistant_titles _ _ _ E2).
    now apply (titles_default_append _ _ (take_last (set_queue q (deferred_deletes a)))).
Qed.

Lemma steps_titles (evs : list event) (a a' : App) :
  steps json_loads evs a = Some a' -> titles_default a -> titles_default a'.
Proof.
  revert a. induction evs as [|ev evs IH]; intros a; simpl.
  - now intros [= <-].
  - destruct (step json_loads ev a) as [a1|] eqn:E1; [|discriminate].
    cbn [mbind option_bind]. intros H Ht.
    apply (IH a1 H). exact (step_titles _ _ _ E1 Ht).
Qed.

(** Whatever is sent and whatever the streams do, every session keeps the
    title it was created with: the test that guards the assignment of the
    title, one user message in the log, is made after the user message
    has been appended twice. *)
Lemma titles_stay_default (a : App) :
  reachable json_loads a -> titles_default a.
Proof.
  intros (model & cid & evs & H).
  apply (steps_titles _ _ _ H). unfold titles_default. simpl.
  now repeat constructor.
Qed.

End TitleFacts.

(** ** How a stream ends *)

Section EndFacts.

Variable json_loads : string -> option Py.value.

Lemma take_content_chunks (data : Py.value) (full full' : string)
  (out : list signal) :
  take_content data full = inr (full', out) ->
  Forall (fun s => is_chunk s = true) out.
Proof.
  unfold take_content.
  destruct data as [ | | | | | |d]; try (intros [= <- <-]; constructor).
  destruct (Py.get "message" d) as [[ | | | | | |m]|];
    try (intros [= <- <-]; constructor).
  destruct (Py.truthy _); [|intros [= <- <-]; constructor].
  destruct (match Py.get "content" m with Some v => v | None => Py.None_ end);
    simpl; try discriminate.
  intros [= <- <-]. now repeat constructor.
Qed.

Lemma loop_body_chunks (r : bool) (line full full' : string) (f : flow)
  (out : list signal) :
  loop_body json_loads r line full = (f, full', out) ->
  Forall (fun s => is_chunk s = true) out.
Proof.
  unfold loop_body. destruct (negb r); [intros [= <- <- <-]; constructor|].
  destruct (String.eqb line ""); [intros [= <- <- <-]; constructor|].
  destruct (json_loads line) as [data|]; [|intros [= <- <- <-]; constructor].
  destruct (take_content data full) as [e|[full1 out1]] eqn:E;
    [intros [= <- <- <-]; constructor|].
  apply take_content_chunks in E.
  destruct (is_done data); now intros [= <- <- <-].
Qed.

(** The loop emits chunks and nothing else. *)
Lemma for_lines_chunks (ls : list (bool * string)) (broken : option string)
  (full : string) :
  Forall (fun s => is_chunk s = true)
         (snd (for_lines json_loads ls broken full)).
Proof.
  revert full. induction ls as [|[r line] ls IH]; intros full; simpl.
  - destruct broken; constructor.
  - destruct (loop_body json_loads r line full) as [[f full'] out] eqn:E.
    apply loop_body_chunks in E.
    destruct f; simpl; try exact E.
    specialize (IH full').
    destruct (for_lines json_loads ls broken full') as [o out'].
    simpl in *. apply Forall_app. now split.
Qed.

Lemma steps_app (evs evs' : list event) (a : App) :
  steps json_loads (evs ++ evs') a
  = steps json_loads evs a ≫= steps json_loads evs'.
Proof.
  revert a. induction evs as [|ev evs IH]; intros a; simpl; [reflexivity|].
  destruct (step json_loads ev a) as [a1|]; simpl; [apply IH | reflexivity].
Qed.

Lemma handle_add (n m : nat) : handle (n + m) = handle n ++ handle m.
Proof. apply replicate_add. Qed.

(** A label that nobody has asked to delete is there when the next signal
    is handled. *)
Lemma lookup_deferred_deletes (a : App) (w : nat) (l : Label.t) :
  labels a !! w = Some l -> Label.state l = Alive ->
  labels (deferred_deletes a) !! w = Some l.
Proof.
  intros Hl Ha. simpl. rewrite list_lookup_fmap, Hl. simpl.
  unfold Label.tick. now rewrite Ha.
Qed.

(** Chunks at the head of the queue, handled while the label of their
    worker is alive: they are written to the label and leave the rest of
    the window as it is. *)
Lemma handled_chunks (w : nat) (out : list signal) :
  Forall (fun s => is_chunk s = true) out ->
  forall (a : App) (q : list (nat * signal)) (l : Label.t),
    queue a = map (pair w) out ++ q ->
    labels a !! w = Some l -> Label.state l = Alive ->
    exists ls l',
      steps json_loads (handle (length out)) a
      = Some (set_queue q (set_labels ls a))
      /\ ls !! w = Some l' /\ Label.state l' = Alive.
Proof.
  induction 1 as [|s out Hs Hout IH]; intros a q l Hq Hl Ha.
  - exists (labels a), l. simpl in Hq. rewrite <- Hq.
    split; [|now split]. now destruct a.
  - destruct s as [b|c|t|e]; try discriminate. simpl in Hq.
    cbn [length handle replicate steps step]. rewrite Hq. cbn [slot].
    unfold on_chunk_slot.
    change (labels (set_queue ?x ?b)) with (labels b).
    rewrite (lookup_deferred_deletes a w l Hl Ha).
    cbn [mbind option_bind]. rewrite Ha. cbn [mbind option_bind].
    set (l1 := Label.setText (on_chunk (Label.text l) c) l).
    set (a1 := set_labels _ _).
    destruct (IH a1 q l1) as (ls & l' & Hst & Hls & Hl'); [reflexivity| |exact Ha|].
    { subst a1. simpl. apply list_lookup_insert_eq.
      rewrite length_map. now apply lookup_lt_Some in Hl. }
    exists ls, l'. split; [|now split].
    fold (handle (length out)). rewrite Hst. reflexivity.
Qed.

(** The signals of a [run] that failed, at the request or in the middle
    of the lines: chunks, the error, and the two typing signals around
    them. *)
Lemma run_failed (r : response) (e : string) :
  result json_loads r = Failed e ->
  exists out,
    Forall (fun s => is_chunk s = true) out
    /\ run json_loads r
       = typing_signal true :: out ++ [error_occurred e; typing_signal false].
Proof.
  unfold run, result. destruct r as [e'|ls broken].
  - intros [= ->]. exists []. now split.
  - pose proof (for_lines_chunks ls broken "") as Hc.
    destruct (for_lines json_loads ls broken "") as [[full|e'] out];
      simpl in Hc |- *; [discriminate|].
    intros [= ->]. exists out. split; [exact Hc|]. now rewrite <- app_assoc.
Qed.

(** C1, the half that holds: a stream that ends in an error commits
    nothing. When the signals of such a run are queued and the label of
    its worker has not been asked to go, they are all handled, the error is
    shown and every log is as before. *)
Lemma errored_stream_commits_nothing (w : nat) (r : response) (a : App)
  (e : string) (l : Label.t) :
  result json_loads r = Failed e ->
  queue a = map (pair w) (run json_loads r) ->
  labels a !! w = Some l -> Label.state l = Alive ->
  exists a',
    steps json_loads (handle (length (run json_loads r))) a = Some a'
    /\ sessions a' = sessions a
    /\ shown a' = shown a ++ ["AI Error: " +:+ e]
    /\ queue a' = [].
Proof.
  intros Hf Hq Hl Ha. destruct (run_failed r e Hf) as (out & Hc & Hrun).
  rewrite Hrun in Hq |- *. simpl in Hq. rewrite map_app in Hq.
  cbn [length handle replicate steps step]. rewrite Hq. cbn [slot].
  cbn [mbind option_bind]. fold (handle (length (out ++ [error_occurred e;
                                                     typing_signal false]))).
  rewrite length_app, handle_add, steps_app.
  set (a1 := set_queue _ (deferred_deletes a)).
  destruct (handled_chunks w out Hc a1
              (map (pair w) [error_occurred e; typing_signal false]) l)
    as (ls & l' & Hst & _); [reflexivity | | exact Ha |].
  { subst a1. now apply lookup_deferred_deletes. }
  rewrite Hst. cbn [mbind option_bind]. eexists. split; [reflexivity|].
  now repeat split.
Qed.

(** Inside the loop, the moves of a thread that nobody stops emit what
    [for_lines] emits, then the closing signals. *)
Lemma drive_streaming (msgs : list Message.t) (ls : list string)
  (w : Worker.t) :
  Worker.stage w = Streaming -> Worker._running w = true ->
  snd (drive json_loads msgs (map LineArrives ls ++ [StreamEnds]) w)
  = match for_lines json_loads (unstopped ls) None (Worker.full w) with
    | (Emitted full, out) => out ++ [full_response full; typing_signal false]
    | (Failed e, out) => out ++ [error_occurred e; typing_signal false]
    end.
Proof.
  revert w. induction ls as [|l ls IH]; intros w Hs Hr.
  - simpl. unfold thread_step. rewrite Hs. reflexivity.
  - simpl. unfold thread_step. rewrite Hs, Hr.
    destruct (loop_body json_loads true l (Worker.full w))
      as [[f full'] out] eqn:E.
    destruct f.
    + specialize (IH (Worker.goto Streaming full' w) eq_refl Hr).
      simpl in IH.
      destruct (drive json_loads msgs (map LineArrives ls ++ [StreamEnds])
                  (Worker.goto Streaming full' w)) as [w2 out2].
      simpl in *. rewrite IH.
      destruct (for_lines json_loads (unstopped ls) None full')
        as [[full2|e2] out3]; simpl; now rewrite <- app_assoc.
    + destruct (map LineArrives ls ++ [StreamEnds]); simpl;
        now rewrite app_nil_r.
    + destruct (map LineArrives ls ++ [StreamEnds]); simpl;
        now rewrite app_nil_r.
Qed.

(** From [__init__] of the worker to the end of the response, the moves
    of the thread emit the signals of [run] on the same lines. *)
Lemma drive_run (msgs : list Message.t) (model : string) (session : nat)
  (ls : list string) :
  snd (drive json_loads msgs (answered ls) (Worker.init model session))
  = run json_loads (Opened (unstopped ls) None).
Proof.
  unfold answered, run. simpl.
  pose proof (drive_streaming msgs ls
                (Worker.goto Streaming "" (Worker.post msgs
                                             (Worker.init model session)))
                eq_refl eq_refl) as H.
  simpl in H.
  destruct (drive json_loads msgs (map LineArrives ls ++ [StreamEnds]) _)
    as [w2 out2].
  simpl in *. rewrite H.
  destruct (for_lines json_loads (unstopped ls) None "") as [[full|e] out];
    simpl; now rewrite <- app_assoc.
Qed.

End EndFacts.

(** ** The title expression *)

Lemma substring_all (n : nat) (s : string) :
  String.length s <= n -> substring 0 n s = s.
Proof.
  revert n. induction s as [|c s IH]; intros [|n] H; simpl in *;
    try reflexivity; try lia.
  rewrite IH by lia. reflexivity.
Qed.

Lemma substring_split (n : nat) (s : string) :
  n <= String.length s ->
  String.length (substring 0 n s) = n
  /\ substring 0 n s +:+ substring n (String.length s - n) s = s.
Proof.
  revert n. induction s as [|c s IH]; intros [|n] H; simpl in *; try lia.
  - now split.
  - split; [reflexivity|]. rewrite substring_all by lia. reflexivity.
  - destruct (IH n) as [Hl Hs]; [lia|]. split; [now rewrite Hl|].
    rewrite append_cons. now rewrite Hs.
Qed.

Lemma length_append (s t : string) :
  String.length (s +:+ t) = String.length s + String.length t.
Proof.
  induction s as [|c s IH]; [reflexivity|].
  rewrite append_cons. simpl. now rewrite IH.
Qed.

(** The title expression of line 280: a text of at most 30 characters is
    its own title; a longer one gives its first 30 characters followed by
    three dots, 33 characters in all. *)
Lemma title_of_spec (text : string) :
  (String.length text <= 30 -> title_of text = text)
  /\ (30 < String.length text ->
      exists rest,
        text = Py.slice_to 30 text +:+ rest
        /\ String.length (Py.slice_to 30 text) = 30
        /\ title_of text = Py.slice_to 30 text +:+ "..."
        /\ String.length (title_of text) = 33).
Proof.
  unfold title_of, Py.slice_to. split; intros H.
  - rewrite substring_all by exact H.
    replace (30 <? String.length text) with false
      by (symmetry; apply Nat.ltb_ge; lia).
    apply append_nil_r.
  - destruct (substring_split 30 text) as [Hl Hs]; [lia|].
    replace (30 <? String.length text) with true
      by (symmetry; apply Nat.ltb_lt; lia).
    exists (substring 30 (String.length text - 30) text).
    repeat split; [now rewrite Hs | exact Hl |].
    rewrite length_append, Hl. reflexivity.
Qed.

(** ** Instances *)

Lemma steps_extends_witness :
  exists a',
    steps Json.loads hello_run fresh = Some a'
    /\ store_extends (sessions fresh) (sessions a').
Proof.
  destruct (steps Json.loads hello_run fresh) as [a'|] eqn:E;
    [|vm_compute in E; discriminate].
  exists a'. split; [reflexivity|].
  exact (steps_extends Json.loads hello_run fresh a' E).
Defined.

Lemma titles_stay_default_witness :
  exists a',
    steps Json.loads (say "short text") fresh = Some a'
    /\ log 0 a' = [user "short text"; user "short text"]
    /\ titles_default a'.
Proof.
  destruct (steps Json.loads (say "short text") fresh) as [a'|] eqn:E;
    [|vm_compute in E; discriminate].
  exists a'. split; [reflexivity|]. split.
  - vm_compute in E. now injection E as <-.
  - apply (titles_stay_default Json.loads a').
    exists (Some "X"), "c0", (say "short text"). exact E.
Defined.

Lemma errored_stream_commits_nothing_witness :
  exists a a',
    steps Json.loads broken_run fresh = Some a
    /\ queue a = [(0, typing_signal true); (0, response_chunk "Hi");
                  (0, error_occurred "connection reset");
                  (0, typing_signal false)]
    /\ steps Json.loads (handle 4) a = Some a'
    /\ sessions a' = sessions a
    /\ shown a' = ["AI Error: connection reset"]
    /\ queue a' = [].
Proof.
  destruct (steps Json.loads broken_run fresh) as [a|] eqn:Ea;
    [|vm_compute in Ea; discriminate].
  assert (queue a = [(0, typing_signal true); (0, response_chunk "Hi");
                      (0, error_occurred "connection reset");
                      (0, typing_signal false)]) as Hq0
    by (vm_compute in Ea; injection Ea as <-; reflexivity).
  assert (labels a !! 0 = Some Label.init) as Hl0
    by (vm_compute in Ea; injection Ea as <-; reflexivity).
  assert (shown a = []) as Hs0
    by (vm_compute in Ea; injection Ea as <-; reflexivity).
  destruct (errored_stream_commits_nothing Json.loads 0
              (Opened (unstopped [content_line (quoted "Hi")])
                 (Some "connection reset"))
              a "connection reset" Label.init eq_refl Hq0 Hl0 eq_refl)
    as (a' & Hs & Hss & Hsh & Hq).
  exists a, a'. split; [reflexivity|]. split; [exact Hq0|].
  split; [exact Hs|]. split; [exact Hss|]. split; [|exact Hq].
  rewrite Hsh, Hs0. reflexivity.
Defined.

(** ** The worker that is superseded *)

(** C3, the part that holds: a send that passes the guards while the slot
    holds a worker stops that worker, and only then creates the new one,
    which takes the slot; no other worker is touched. *)
Lemma send_message_stops_old (a : App) (text model : string) (r w0 : nat)
  (old : Worker.t) :
  Py.strip (input_box a) = text -> text <> "" ->
  selected_model a = Some model ->
  _get_session a = Some r ->
  ollama_worker a = Some w0 ->
  workers a !! w0 = Some old ->
  exists a',
    send_message a = Some a'
    /\ workers a' !! w0 = Some (Worker.stop old)
    /\ ollama_worker a' = Some (length (workers a))
    /\ workers a' !! length (workers a) = Some (Worker.init model r)
    /\ (forall w, w <> w0 -> w <> length (workers a) ->
        workers a' !! w = workers a !! w).
Proof.
  intros Ht Hne Hm Hr Ho Hw. eexists. split.
  { exact (send_message_sends a text model r Ht Hne Hm Hr). }
  cbv zeta. unfold supersede. simpl. rewrite Ho. simpl.
  rewrite length_alter.
  assert (w0 < length (workers a)) as Hlt by now apply lookup_lt_Some in Hw.
  repeat split.
  - rewrite lookup_app_l by now rewrite length_alter.
    now rewrite list_lookup_alter_eq, Hw.
  - rewrite lookup_app_r by now rewrite length_alter.
    now rewrite length_alter, Nat.sub_diag.
  - intros w Hw0 Hnew. destruct (decide (w < length (workers a))) as [Hl|Hl].
    + rewrite lookup_app_l by now rewrite length_alter.
      now rewrite list_lookup_alter_ne.
    + rewrite (lookup_ge_None_2 (workers a)) by lia.
      apply lookup_ge_None_2. rewrite length_app, length_alter. simpl. lia.
Qed.

Lemma send_message_stops_old_witness :
  exists a a',
    steps Json.loads (say "A" ++ reads 0 [content_line (quoted "Hi")]
                      ++ [Typed "B"]) fresh = Some a
    /\ send_message a = Some a'
    /\ map Worker._running (workers a) = [true]
    /\ map Worker._running (workers a') = [false; true]
    /\ ollama_worker a' = Some 1.
Proof.
  destruct (steps Json.loads (say "A" ++ reads 0 [content_line (quoted "Hi")]
                              ++ [Typed "B"]) fresh) as [a|] eqn:Ea;
    [|vm_compute in Ea; discriminate].
  vm_compute in Ea. injection Ea as <-.
  match goal with |- exists a a', Some ?x = Some a /\ _ =>
    destruct (send_message_stops_old x "B" "X" 0 0
                (Worker.goto Streaming "Hi"
                   (Worker.post [user "A"; user "A"] (Worker.init "X" 0))))
      as (a' & Hs & _);
      [reflexivity | discriminate | reflexivity | reflexivity | reflexivity
      | reflexivity |];
    exists x, a'
  end.
  split; [reflexivity|]. split; [exact Hs|].
  vm_compute in Hs. injection Hs as <-. now repeat split.
Defined.

Lemma title_of_spec_witness :
  title_of "short text" = "short text"
  /\ title_of long_text = Py.slice_to 30 long_text +:+ "...".
Proof.
  split.
  - apply (proj1 (title_of_spec "short text")). vm_compute. lia.
  - destruct (proj2 (title_of_spec long_text)) as (rest & _ & _ & H & _);
      [vm_compute; lia | exact H].
Defined.

Lemma load_file_branches_witness :
  load_file true true "not a str" (Some text_file) = Insert "as it is"
  /\ load_file true true "not a str" (Some four_pages)
     = Insert ("one" +:+ Py.newline +:+ Py.newline +:+ "two" +:+ Py.newline)
  /\ load_file true true "not a str" (Some odt_file)
     = Show "Unsupported: .odt".
Proof.
  split; [|split].
  - now apply (proj1 (load_file_branches true true "not a str" text_file)).
  - now apply (proj1 (proj2 (load_file_branches true true "not a str"
                               four_pages))
                 [Extracted "one"; ExtractRaises; ExtractNone;
                  Extracted "two"]).
  - now apply (proj2 (proj2 (load_file_branches true true "not a str"
                               odt_file))).
Defined.

(** ** What on_full writes *)

(** [on_full] writes the text to the log of the session the worker
    answers, and [_render_message] writes it once more to the log of the
    session on display: twice to the same log when they are the same
    session. *)
Lemma on_full_appends_twice (w : nat) (wk : Worker.t) (text : string)
  (a : App) (r : nat) :
  workers a !! w = Some wk ->
  Worker.messages wk = r ->
  _get_session a = Some r ->
  exists a',
    on_full w text a = Some a'
    /\ log r a' = log r a ++ [assistant text; assistant text]
    /\ (forall r', r' <> r -> log r' a' = log r' a)
    /\ ollama_worker a' = None.
Proof.
  intros Hw Hm Hr. unfold on_full. rewrite Hw. cbn [mbind option_bind].
  rewrite Hm. fold (assistant text).
  rewrite (render_appends "assistant" text
             (append_message r (assistant text) (take_last a)) r);
    [|now rewrite get_session_append | left; discriminate].
  cbn [mbind option_bind]. eexists. split; [reflexivity|].
  pose proof (get_session_lookup a r Hr) as Hs.
  assert (is_Some (sessions (append_message r (assistant text) a) !! r))
    as Hs'.
  { unfold append_message. simpl. rewrite list_lookup_alter_eq.
    destruct Hs as [s ->]. now eexists. }
  repeat split.
  - change (log r (append_message r (assistant text)
                     (append_message r (assistant text) a))
            = log r a ++ [assistant text; assistant text]).
    rewrite !log_append_eq by assumption. now rewrite <- app_assoc.
  - intros r' Hne.
    change (log r' (append_message r (assistant text)
                      (append_message r (assistant text) a))
            = log r' a).
    now rewrite !log_append_ne by congruence.
Qed.

Lemma on_full_appends_twice_witness :
  exists a a',
    steps Json.loads (say "Hello") fresh = Some a
    /\ on_full 0 "Hi there" a = Some a'
    /\ log 0 a' = [user "Hello"; user "Hello";
                   assistant "Hi there"; assistant "Hi there"].
Proof.
  destruct (steps Json.loads (say "Hello") fresh) as [a|] eqn:Ea;
    [|vm_compute in Ea; discriminate].
  vm_compute in Ea. injection Ea as <-.
  match goal with |- exists a a', Some ?x = Some a /\ _ =>
    destruct (on_full_appends_twice 0 (Worker.init "X" 0) "Hi there" x 0)
      as (a' & Hf & Hl & _); [reflexivity | reflexivity | reflexivity |];
    exists x, a'
  end.
  split; [reflexivity|]. split; [exact Hf | exact Hl].
Defined.

(** A worker that has been stopped, at the next line of its response:
    whatever the line is, the thread hands the text accumulated so far to
    [full_response] and returns. *)
Lemma stopped_thread_emits_full (json_loads : string -> option Py.value)
  (msgs : list Message.t) (line : string) (w : Worker.t) :
  Worker.stage w = Streaming ->
  Worker._running w = false ->
  thread_step json_loads msgs (LineArrives line) w
  = Some (Worker.goto Finished (Worker.full w) w,
          [full_response (Worker.full w); typing_signal false]).
Proof.
  intros Hs Hr. unfold thread_step, loop_body. now rewrite Hs, Hr.
Qed.

Lemma stopped_thread_emits_full_witness :
  let w := Worker.stop (Worker.goto Streaming "Hi" (Worker.init "X" 0)) in
  thread_step Json.loads [] (LineArrives (content_line (quoted " there"))) w
  = Some (Worker.goto Finished "Hi" w,
          [full_response "Hi"; typing_signal false]).
Proof.
  intros w.
  exact (stopped_thread_emits_full Json.loads []
           (content_line (quoted " there")) w eq_refl eq_refl).
Defined.

(** ** The current session is always found *)

Lemma get_session_supersede (a : App) :
  _get_session (supersede a) = _get_session a.
Proof. unfold supersede. now destruct (ollama_worker a). Qed.

Lemma render_keeps_session (role text : string) (initial : bool)
  (a a' : App) :
  _render_message role text initial a = Some a' ->
  is_Some (_get_session a) -> is_Some (_get_session a').
Proof.
  unfold _render_message. destruct initial; [now intros [= <-]|].
  destruct (_get_session a) as [r|] eqn:Er; [|discriminate].
  cbn [mbind option_bind].
  set (a1 := append_message r _ a).
  assert (_get_session a1 = Some r) as E1
    by (unfold a1; now rewrite get_session_append).
  destruct (sessions a1 !! r) as [s|]; [|discriminate].
  cbn [mbind option_bind].
  destruct (_ && _); intros [= <-] _;
    [|change (is_Some (_get_session a1)); now rewrite E1].
  unfold _get_session in *.
  change (is_Some (first_with_id
                     (alter (Session.set_title (title_of text)) r (sessions a1))
                     (current_session_id a1) (chat_sessions a1))).
  rewrite first_with_id_alter by reflexivity. now rewrite E1.
Qed.

Section FoundFacts.

Variable json_loads : string -> option Py.value.

Lemma step_keeps_session (ev : event) (a a' : App) :
  step json_loads ev a = Some a' ->
  is_Some (_get_session a) -> is_Some (_get_session a').
Proof.
  destruct ev as [text| |cid|row|name|w e|]; cbn [step].
  - now intros [= <-].
  - unfold send_message.
    destruct (String.eqb _ _); [now intros [= <-]|].
    destruct (selected_model a) as [model|]; [|now intros [= <-]].
    destruct (_get_session a) as [r|] eqn:Er; [|discriminate].
    cbn [mbind option_bind].
    set (a1 := append_message r _ a).
    destruct (_render_message "user" _ false a1) as [a2|] eqn:E2;
      [|discriminate].
    cbn [mbind option_bind]. intros [= <-] _.
    change (is_Some (_get_session
                       (supersede (add_placeholder (set_input_box "" a2))))).
    rewrite get_session_supersede.
    change (is_Some (_get_session a2)).
    apply (render_keeps_session _ _ _ _ _ E2).
    unfold a1. now rewrite get_session_append, Er.
  - unfold start_new_chat. intros H _.
    apply (render_keeps_session _ _ _ _ _ H).
    unfold _get_session. simpl.
    rewrite list_lookup_middle by reflexivity. simpl.
    now rewrite bool_decide_eq_true_2.
  - destruct (chat_sessions a !! row) as [r|]; [|discriminate].
    cbn [mbind option_bind].
    destruct (sessions a !! r) as [s|]; [|discriminate].
    cbn [mbind option_bind]. intros H Hs.
    apply on_chat_selected_eq in H as [[_ ->]|(_ & r' & Hr' & ->)];
      [exact Hs|].
    unfold _get_session. simpl. rewrite Hr'. now eexists.
  - now intros [= <-].
  - destruct (workers a !! w) as [wk|]; [|discriminate].
    cbn [mbind option_bind].
    destruct (sessions a !! Worker.messages wk) as [s|]; [|discriminate].
    cbn [mbind option_bind].
    destruct (thread_step _ _ _ _) as [[wk' out]|];
      cbn [mbind option_bind]; [|discriminate].
    now intros [= <-].
  - destruct (queue a) as [|[w sg] q]; [discriminate|].
    destruct sg as [b|c|t|e]; cbn [slot]; try (now slot_same).
    unfold on_full.
    destruct (workers _ !! w) as [wk|]; [|discriminate].
    cbn [mbind option_bind].
    set (a1 := append_message _ _ _).
    destruct (_render_message "assistant" t false a1) as [a2|] eqn:E2;
      [|discriminate].
    cbn [mbind option_bind]. intros [= <-] Hs.
    change (is_Some (_get_session a2)).
    apply (render_keeps_session _ _ _ _ _ E2).
    unfold a1. now rewrite get_session_append.
Qed.

Lemma reachable_session (a : App) :
  reachable json_loads a -> is_Some (_get_session a).
Proof.
  intros (model & cid & evs & H).
  assert (is_Some (_get_session (init model cid))) as H0.
  { unfold _get_session. simpl. now rewrite bool_decide_eq_true_2. }
  revert H H0. generalize (init model cid) as a0.
  induction evs as [|ev evs IH]; intros a0; simpl.
  - now intros [= <-].
  - destruct (step json_loads ev a0) as [a1|] eqn:E1; [|discriminate].
    cbn [mbind option_bind]. intros H H0.
    apply (IH a1 H). exact (step_keeps_session _ _ _ E1 H0).
Qed.

(** In every state the window can reach, a send with text in the box and
    a model selected goes through, and the log of the session on display
    gets the user message twice. *)
Lemma reachable_send_appends_twice (a : App) (model : string) :
  reachable json_loads a ->
  all_space (input_box a) = false ->
  selected_model a = Some model ->
  exists r a',
    _get_session a = Some r
    /\ send_message a = Some a'
    /\ log r a' = log r a ++ [user (Py.strip (input_box a));
                              user (Py.strip (input_box a))].
Proof.
  intros Hr Hs Hm. destruct (reachable_session a Hr) as [r Er].
  assert (Py.strip (input_box a) <> "") as Hne.
  { intros H. apply strip_empty in H. congruence. }
  pose proof (send_message_sends a _ model r eq_refl Hne Hm Er) as Hsend.
  pose proof (get_session_lookup a r Er) as Hl.
  exists r. eexists. split; [exact Er|]. split; [exact Hsend|].
  cbv zeta.
  change (log r (set_ollama_worker ?x (set_workers ?y ?b))) with (log r b).
  rewrite log_supersede.
  change (log r (append_message r (user (Py.strip (input_box a)))
                   (append_message r (user (Py.strip (input_box a))) a))
          = log r a ++ [user (Py.strip (input_box a));
                        user (Py.strip (input_box a))]).
  rewrite log_append_eq.
  - rewrite log_append_eq by exact Hl. now rewrite <- app_assoc.
  - unfold append_message. simpl. rewrite list_lookup_alter_eq.
    destruct Hl as [s ->]. now eexists.
Qed.

End FoundFacts.

Lemma reachable_send_appends_twice_witness :
  exists a r a',
    steps Json.loads (hello_run ++ [Typed "And then?"]) fresh = Some a
    /\ _get_session a = Some r
    /\ send_message a = Some a'
    /\ log r a' = log r a ++ [user "And then?"; user "And then?"].
Proof.
  destruct (steps Json.loads (hello_run ++ [Typed "And then?"]) fresh)
    as [a|] eqn:Ea; [|vm_compute in Ea; discriminate].
  destruct (reachable_send_appends_twice Json.loads a "X")
    as (r & a' & Hr & Hs & Hl).
  - exists (Some "X"), "c0", (hello_run ++ [Typed "And then?"]). exact Ea.
  - vm_compute in Ea. now injection Ea as <-.
  - vm_compute in Ea. now injection Ea as <-.
  - exists a, r, a'. split; [reflexivity|]. split; [exact Hr|].
    split; [exact Hs|]. rewrite Hl.
    vm_compute in Ea. now injection Ea as <-.
Defined.

(** ** The label of the answer under way *)

Lemma replace_char_app (c : ascii) (rep s t : string) :
  replace_char c rep (s +:+ t) = replace_char c rep s +:+ replace_char c rep t.
Proof.
  induction s as [|x s IH]; [reflexivity|].
  rewrite append_cons. simpl. rewrite IH.
  destruct (Ascii.eqb x c); [now rewrite append_assoc | now rewrite append_cons].
Qed.

Lemma format_html_app (s t : string) :
  _format_html (s +:+ t) = _format_html s +:+ _format_html t.
Proof. unfold _format_html. now rewrite !replace_char_app. Qed.

(** The three passes come to one pass that rewrites each character on its
    own. *)
Lemma format_html_cons (x : ascii) (s : string) :
  _format_html (String x s)
  = (if Ascii.eqb x "<" then "&lt;"
     else if Ascii.eqb x ">" then "&gt;"
     else if Ascii.eqb x line_feed then "<br>"
     else String x "") +:+ _format_html s.
Proof.
  change (String x s) with (String x "" +:+ s). rewrite format_html_app.
  f_equal. unfold _format_html. simpl.
  destruct (Ascii.eqb x "<") eqn:E1; [reflexivity|]. simpl.
  destruct (Ascii.eqb x ">") eqn:E2; [reflexivity|]. simpl.
  now destruct (Ascii.eqb x line_feed).
Qed.

Lemma without_line_feeds_cons (x : ascii) (s : string) :
  without_line_feeds (String x s)
  = if Ascii.eqb x line_feed then without_line_feeds s
    else String x (without_line_feeds s).
Proof. unfold without_line_feeds. simpl. now destruct (Ascii.eqb x line_feed). Qed.

Lemma append_nil_l (s : string) : "" +:+ s = s.
Proof. reflexivity. Qed.

(** Reading a formatted text back through the tag pattern gives the
    formatted text without its line breaks: the [<br>] the third pass put
    in are the only tags. *)
Lemma strip_tags_format_html (t : string) :
  strip_tags (_format_html t) = _format_html (without_line_feeds t).
Proof.
  unfold strip_tags. induction t as [|x t IH]; [reflexivity|].
  rewrite format_html_cons, without_line_feeds_cons.
  destruct (Ascii.eqb x "<") eqn:E1.
  { apply Ascii.eqb_eq in E1. subst x.
    change (Ascii.eqb "<" line_feed) with false. cbv iota.
    rewrite format_html_cons. change (Ascii.eqb "<" "<") with true. cbv iota.
    rewrite !append_cons, !append_nil_l. simpl. now rewrite IH. }
  destruct (Ascii.eqb x ">") eqn:E2.
  { apply Ascii.eqb_eq in E2. subst x.
    change (Ascii.eqb ">" line_feed) with false. cbv iota.
    rewrite format_html_cons. change (Ascii.eqb ">" "<") with false.
    change (Ascii.eqb ">" ">") with true. cbv iota.
    rewrite !append_cons, !append_nil_l. simpl. now rewrite IH. }
  destruct (Ascii.eqb x line_feed) eqn:E3.
  { rewrite !append_cons, !append_nil_l. simpl. exact IH. }
  rewrite format_html_cons, E1, E2, E3, !append_cons, !append_nil_l.
  simpl. rewrite E1. simpl. now rewrite IH.
Qed.

(** A text that is formatted and has no line break is left alone by a
    second formatting. *)
Lemma format_html_twice (t : string) :
  _format_html (_format_html (without_line_feeds t))
  = _format_html (without_line_feeds t).
Proof.
  induction t as [|x t IH]; [reflexivity|].
  rewrite without_line_feeds_cons.
  destruct (Ascii.eqb x line_feed) eqn:E3; [exact IH|].
  rewrite format_html_cons, E3.
  destruct (Ascii.eqb x "<") eqn:E1.
  { now rewrite format_html_app, IH. }
  destruct (Ascii.eqb x ">") eqn:E2.
  { now rewrite format_html_app, IH. }
  now rewrite append_cons, append_nil_l, format_html_cons, E1, E2, E3, IH.
Qed.

Lemma without_line_feeds_app (s t : string) :
  without_line_feeds (s +:+ t) = without_line_feeds s +:+ without_line_feeds t.
Proof. apply replace_char_app. Qed.

Lemma without_line_feeds_twice (s : string) :
  without_line_feeds (without_line_feeds s) = without_line_feeds s.
Proof.
  induction s as [|x s IH]; [reflexivity|].
  rewrite without_line_feeds_cons.
  destruct (Ascii.eqb x line_feed) eqn:E; [exact IH|].
  now rewrite without_line_feeds_cons, E, IH.
Qed.

Lemma concat_snoc (ls : list string) (l : string) :
  concat (ls ++ [l]) = concat ls +:+ l.
Proof.
  unfold concat. induction ls as [|x ls IH]; simpl.
  - now rewrite append_nil_r.
  - now rewrite IH, append_assoc.
Qed.

(** The label while an answer streams in: after the chunks [cs] and one
    more chunk [c] it shows the formatted text of all chunks, with the
    line breaks of [c] only; those of the earlier chunks are gone, because
    each [on_chunk] reads the label back through the tag pattern. *)
Lemma on_chunk_label (cs : list string) (c : string) :
  foldl on_chunk "" (cs ++ [c])
  = _format_html (without_line_feeds (concat cs)) +:+ _format_html c.
Proof.
  revert c. induction cs as [|c' cs IH] using rev_ind; intros c.
  - reflexivity.
  - rewrite foldl_app. cbn [foldl]. rewrite IH. unfold on_chunk.
    rewrite <- format_html_app, strip_tags_format_html.
    rewrite format_html_app, format_html_twice. f_equal. f_equal.
    rewrite concat_snoc, !without_line_feeds_app.
    now rewrite without_line_feeds_twice.
Qed.

(** [_format_html] rewrites every character on its own, in one sweep: the
    entities and the [<br>] that a pass puts in are never rewritten by a
    later pass. The result has no line feed left. *)
Lemma format_html_charwise (t : string) :
  _format_html t = concat (map escape_char (list_ascii_of_string t))
  /\ has_char line_feed (_format_html t) = false.
Proof.
  induction t as [|x t [IH1 IH2]]; [now split|].
  rewrite format_html_cons. fold (escape_char x). split.
  - simpl. now rewrite IH1.
  - unfold escape_char.
    destruct (Ascii.eqb x "<"); [exact IH2|].
    destruct (Ascii.eqb x ">"); [exact IH2|].
    destruct (Ascii.eqb x line_feed) eqn:E; [exact IH2|].
    rewrite append_cons, append_nil_l. simpl. now rewrite E.
Qed.

(** ** The signals of a run *)

Section ShapeFacts.

Variable json_loads : string -> option Py.value.

Lemma take_content_adds (data : Py.value) (full full' : string)
  (out : list signal) :
  take_content data full = inr (full', out) ->
  out = map response_chunk (chunk_texts out)
  /\ full' = full +:+ concat (chunk_texts out).
Proof.
  unfold take_content.
  destruct data as [ | | | | | |d];
    try (intros [= <- <-]; now rewrite append_nil_r).
  destruct (Py.get "message" d) as [[ | | | | | |m]|];
    try (intros [= <- <-]; now rewrite append_nil_r).
  destruct (Py.truthy _); [|intros [= <- <-]; now rewrite append_nil_r].
  destruct (match Py.get "content" m with Some v => v | None => Py.None_ end);
    simpl; try discriminate.
  intros [= <- <-]. simpl. now rewrite append_nil_r.
Qed.

Lemma loop_body_adds (r : bool) (line full full' : string) (f : flow)
  (out : list signal) :
  loop_body json_loads r line full = (f, full', out) ->
  out = map response_chunk (chunk_texts out)
  /\ (match f with Raise _ => True | _ => full' = full +:+ concat (chunk_texts out) end).
Proof.
  unfold loop_body.
  destruct (negb r); [intros [= <- <- <-]; now rewrite append_nil_r|].
  destruct (String.eqb line "");
    [intros [= <- <- <-]; now rewrite append_nil_r|].
  destruct (json_loads line) as [data|];
    [|intros [= <- <- <-]; now rewrite append_nil_r].
  destruct (take_content data full) as [e|[full1 out1]] eqn:E;
    [now intros [= <- <- <-]|].
  apply take_content_adds in E.
  destruct (is_done data); now intros [= <- <- <-].
Qed.

Lemma chunk_texts_app (out out' : list signal) :
  chunk_texts (out ++ out') = chunk_texts out ++ chunk_texts out'.
Proof. unfold chunk_texts. apply omap_app. Qed.

Lemma concat_app (ls ls' : list string) :
  concat (ls ++ ls') = concat ls +:+ concat ls'.
Proof.
  unfold concat. induction ls as [|x ls IH]; simpl; [reflexivity|].
  now rewrite IH, append_assoc.
Qed.

(** Whatever the lines are and whenever the worker is stopped, [full]
    holds the chunks emitted so far, one after the other. *)
Lemma for_lines_adds (ls : list (bool * string)) (broken : option string)
  (full : string) :
  snd (for_lines json_loads ls broken full)
  = map response_chunk (chunk_texts (snd (for_lines json_loads ls broken full)))
  /\ forall f, fst (for_lines json_loads ls broken full) = Emitted f ->
       f = full +:+ concat (chunk_texts
                              (snd (for_lines json_loads ls broken full))).
Proof.
  revert full. induction ls as [|[r line] ls IH]; intros full; simpl.
  - destruct broken; simpl; split; try reflexivity; try discriminate.
    intros f [= <-]. now rewrite append_nil_r.
  - destruct (loop_body json_loads r line full) as [[f0 full'] out] eqn:E.
    apply loop_body_adds in E as [Ho Hf].
    destruct f0; simpl.
    + destruct (IH full') as [IHo IHf].
      destruct (for_lines json_loads ls broken full') as [o out'].
      simpl in *. rewrite chunk_texts_app, map_app, <- Ho, <- IHo.
      split; [reflexivity|]. intros f Hfo. rewrite (IHf f Hfo), Hf.
      now rewrite concat_app, append_assoc.
    + split; [exact Ho|]. now intros f [= <-].
    + split; [exact Ho | discriminate].
Qed.

(** Every run, whatever the response and whenever the worker is stopped:
    [typing_signal(True)], then chunks only, then one closing signal, then
    [typing_signal(False)]. The closing signal is an error or
    [full_response] with the chunks of this run, one after the other, as
    its text. *)
Lemma run_shape (r : response) :
  exists cs closing,
    run json_loads r
    = [typing_signal true] ++ map response_chunk cs
      ++ [closing; typing_signal false]
    /\ (closing = full_response (concat cs)
        \/ exists e, closing = error_occurred e).
Proof.
  unfold run. destruct r as [e|ls broken].
  - exists [], (error_occurred e). split; [reflexivity|]. right. now exists e.
  - destruct (for_lines_adds ls broken "") as [Ho Hf].
    destruct (for_lines json_loads ls broken "") as [[full|e] out];
      simpl in *.
    + exists (chunk_texts out), (full_response full).
      rewrite <- Ho, <- app_assoc. split; [reflexivity|]. left.
      now rewrite (Hf full eq_refl).
    + exists (chunk_texts out), (error_occurred e).
      rewrite <- Ho, <- app_assoc. split; [reflexivity|]. right.
      now exists e.
Qed.

End ShapeFacts.

(** ** load_models *)

Lemma names_of_truthy (ms ns : list Py.value) :
  names_of ms = Some ns -> Forall (fun n => Py.truthy n = true) ns.
Proof.
  revert ns. induction ms as [|m ms IH]; intros ns; simpl.
  - intros [= <-]. constructor.
  - destruct (name_of m) as [n|]; [|discriminate]. cbn [mbind option_bind].
    destruct (names_of ms) as [ns'|]; [|discriminate].
    cbn [mbind option_bind]. specialize (IH ns' eq_refl).
    destruct (Py.truthy n) eqn:E; intros [= <-]; [|exact IH].
    now constructor.
Qed.

Lemma as_strings_nonempty (vs : list Py.value) (ss : list string) :
  Forall (fun n => Py.truthy n = true) vs ->
  as_strings vs = Some ss -> Forall (fun s => s <> "") ss.
Proof.
  revert ss. induction vs as [|v vs IH]; intros ss Ht; simpl.
  - intros [= <-]. constructor.
  - inversion Ht as [|? ? Hv Hvs]; subst.
    destruct v; try discriminate.
    destruct (as_strings vs) as [ss'|]; [|discriminate].
    cbn [mbind option_bind]. intros [= <-]. constructor; [|now apply IH].
    simpl in Hv. intros ->. discriminate.
Qed.

Lemma load_models_facts (reply : option Py.value) (a : App) :
  selected_model (load_models_app reply a) = head (fst (fst (load_models reply)))
  /\ snd (fst (load_models reply)) = head (fst (fst (load_models reply)))
  /\ Forall (fun n => n <> "") (fst (fst (load_models reply)))
  /\ (snd (load_models reply) = Online <-> fst (fst (load_models reply)) <> []).
Proof.
  unfold load_models_app, selected_model, load_models.
  destruct (reply ≫= model_names) as [[|v vs]|] eqn:E.
  - simpl. repeat split;
      try solve [constructor | discriminate | congruence
                | intros H; now destruct H].
  - assert (exists ms, names_of ms = Some (v :: vs)) as [ms Hms].
    { destruct reply as [data|]; [|discriminate]. simpl in E.
      unfold model_names in E. destruct data; try discriminate.
      destruct (iterate _) as [ms|]; [|discriminate]. now exists ms. }
    apply names_of_truthy in Hms.
    destruct (as_strings (v :: vs)) as [[|m ms']|] eqn:Es.
    + simpl. repeat split;
        try solve [constructor | discriminate | congruence
                  | intros H; now destruct H].
    + pose proof (as_strings_nonempty _ _ Hms Es) as Hne.
      inversion Hne as [|? ? Hm _]; subst. simpl.
      rewrite (eqb_empty_false _ Hm).
      repeat split; try solve [assumption | discriminate | congruence].
    + simpl. repeat split;
        try solve [constructor | discriminate | congruence
                  | intros H; now destruct H].
  - simpl. repeat split;
      try solve [constructor | discriminate | congruence
                | intros H; now destruct H].
Qed.

Lemma names_of_entries (ms : list Py.value) (names : list string) :
  Forall2 entry_name ms names ->
  names_of ms = Some (Py.Str <$> filter (fun n => n <> "") names).
Proof.
  induction 1 as [|m n ms names (d & -> & Hn) _ IH]; [reflexivity|].
  simpl. rewrite IH. cbn [mbind option_bind].
  destruct (Py.get "name" d) as [[ | | | |s| | ]|]; try contradiction; subst.
  - simpl. rewrite filter_cons.
    destruct (decide (s <> "")) as [Hs|Hs].
    + now rewrite (eqb_empty_false _ Hs).
    + apply dec_stable in Hs. now subst.
  - simpl. rewrite filter_cons. now destruct (decide ("" <> "")).
Qed.

Lemma as_strings_strs (ss : list string) :
  as_strings (Py.Str <$> ss) = Some ss.
Proof.
  induction ss as [|s ss IH]; [reflexivity|].
  change (as_strings (Py.Str s :: (Py.Str <$> ss)) = Some (s :: ss)).
  cbn [as_strings]. now rewrite IH.
Qed.

(** When the reply is a dict whose [models] is a list of dicts, each with
    a [str] name or none, the dropdown gets the non-empty names in the
    order of the reply and the first of them is selected. *)
Lemma load_models_lists_names (d : list (string * Py.value))
  (ms : list Py.value) (names : list string) :
  Py.get "models" d = Some (Py.List ms) ->
  Forall2 entry_name ms names ->
  load_models (Some (Py.Dict d))
  = (filter (fun n => n <> "") names,
     head (filter (fun n => n <> "") names),
     if decide (filter (fun n => n <> "") names = []) then NoModels
     else Online).
Proof.
  intros Hd Hn. unfold load_models. simpl. rewrite Hd. simpl.
  rewrite (names_of_entries ms names Hn).
  destruct (filter (fun n => n <> "") names) as [|n ns] eqn:E;
    [reflexivity|].
  cbn [fmap list_fmap]. cbn [as_strings].
  rewrite as_strings_strs. reflexivity.
Qed.

Lemma load_models_lists_names_witness :
  load_models (Some two_models)
  = (["llama3"; "mistral"], Some "llama3", Online).
Proof.
  assert (Forall2 entry_name
            [Py.Dict [("name", Py.Str "llama3"); ("size", Py.Int 4)];
             Py.Dict [("size", Py.Int 1)];
             Py.Dict [("name", Py.Str "mistral")]]
            ["llama3"; ""; "mistral"]) as H
    by (repeat constructor; eexists; (split; [reflexivity|]); reflexivity).
  exact (load_models_lists_names
           [("models",
             Py.List [Py.Dict [("name", Py.Str "llama3"); ("size", Py.Int 4)];
                      Py.Dict [("size", Py.Int 1)];
                      Py.Dict [("name", Py.Str "mistral")]])]
           _ _ eq_refl H).
Defined.

(** After [load_models], whatever the server answered: a model is
    selected exactly when the dropdown has items, it is the first item,
    no item is the empty string, and the status is the online one exactly
    then; with any other status a send with text in the box only shows
    the notice. *)
Lemma load_models_selects (reply : option Py.value) (a : App) :
  selected_model (load_models_app reply a) = head (fst (fst (load_models reply)))
  /\ Forall (fun n => n <> "") (fst (fst (load_models reply)))
  /\ (snd (load_models reply) = Online <-> fst (fst (load_models reply)) <> [])
  /\ (snd (load_models reply) <> Online ->
      all_space (input_box a) = false ->
      send_message (load_models_app reply a)
      = Some (_show_system "Select a model first" (load_models_app reply a))).
Proof.
  destruct (load_models_facts reply a) as (Hsel & _ & Hne & Hon).
  repeat split; try assumption; try apply Hon.
  intros Hoff Hbox. unfold send_message.
  assert (Py.strip (input_box (load_models_app reply a)) <> "") as Hs.
  { intros H. apply strip_empty in H. simpl in H. congruence. }
  rewrite (eqb_empty_false _ Hs), Hsel.
  destruct (fst (fst (load_models reply))) as [|m ms]; [reflexivity|].
  exfalso. apply Hoff, Hon. discriminate.
Qed.

Lemma load_models_selects_witness :
  let a := load_models_app None (set_input_box "Hello" fresh) in
  send_message a = Some (_show_system "Select a model first" a).
Proof.
  intros a.
  exact (proj2 (proj2 (proj2 (load_models_selects None
                                (set_input_box "Hello" fresh))))
           ltac:(discriminate) eq_refl).
Defined.

(** ** The list of chats *)

Lemma ids_alter (f : Session.t -> Session.t) (r : nat)
  (l : list Session.t) :
  (forall s, Session.id (f s) = Session.id s) ->
  map Session.id (alter f r l) = map Session.id l.
Proof.
  intros Hf. apply list_eq. intros i.
  change (map Session.id) with (fmap (M:=list) Session.id).
  rewrite !list_lookup_fmap, list_lookup_alter.
  destruct (decide (r = i)) as [->|_]; [|reflexivity].
  destruct (l !! i) as [s|]; simpl; [now rewrite Hf | reflexivity].
Qed.

Lemma append_frame (r : nat) (m : Message.t) (a : App) :
  same_frame a (append_message r m a).
Proof.
  unfold same_frame, ids, append_message. simpl.
  rewrite ids_alter by reflexivity. now repeat split.
Qed.

Lemma same_frame_trans (a1 a2 a3 : App) :
  same_frame a1 a2 -> same_frame a2 a3 -> same_frame a1 a3.
Proof.
  unfold same_frame. intros (?&?&?&?&?&?) (?&?&?&?&?&?).
  repeat split; congruence.
Qed.

Lemma render_frame (role text : string) (initial : bool) (a a' : App) :
  _render_message role text initial a = Some a' -> same_frame a a'.
Proof.
  unfold _render_message. destruct initial.
  { intros [= <-]. now repeat split. }
  destruct (_get_session a) as [r|]; [|discriminate]. cbn [mbind option_bind].
  set (a1 := append_message r _ a).
  destruct (sessions a1 !! r) as [s|]; [|discriminate].
  cbn [mbind option_bind].
  assert (same_frame a a1) as H1 by apply append_frame.
  destruct (_ && _); intros [= <-]; [|exact H1].
  eapply same_frame_trans; [exact H1|].
  unfold same_frame, ids. simpl. rewrite ids_alter by reflexivity.
  now repeat split.
Qed.

Lemma new_ids_cons (ev : event) (evs : list event) :
  new_ids (ev :: evs) = new_ids [ev] ++ new_ids evs.
Proof. now destruct ev. Qed.


Lemma first_with_id_unique (store : list Session.t) (refs : list nat)
  (r : nat) (s : Session.t) :
  NoDup (map Session.id store) ->
  Forall (fun r' => r' < length store) refs ->
  r ∈ refs -> store !! r = Some s ->
  first_with_id store (Some (Session.id s)) refs = Some r.
Proof.
  intros Hnd Hv Hin Hs. induction refs as [|r' refs IH]; [now inversion Hin|].
  inversion Hv as [|? ? Hr' Hv']; subst. simpl.
  destruct (lookup_lt_is_Some_2 store r' Hr') as [s' Hs']. rewrite Hs'.
  destruct (bool_decide _) eqn:E.
  - apply bool_decide_eq_true in E. injection E as E. f_equal.
    apply (NoDup_lookup (map Session.id store) r' r (Session.id s) Hnd).
    + change (map Session.id) with (fmap (M:=list) Session.id).
      rewrite list_lookup_fmap, Hs'. simpl. now rewrite E.
    + change (map Session.id) with (fmap (M:=list) Session.id).
      now rewrite list_lookup_fmap, Hs.
  - apply IH; [exact Hv'|]. apply elem_of_cons in Hin as [->|Hin]; [|exact Hin].
    rewrite Hs in Hs'. injection Hs' as <-.
    apply bool_decide_eq_false in E. congruence.
Qed.

Section ListFacts.

Variable json_loads : string -> option Py.value.

(** A step adds a session only when a chat is opened, at the end of the
    store and at the head of the list. *)
Lemma step_ids (ev : event) (a a' : App) :
  step json_loads ev a = Some a' ->
  ids a' = ids a ++ new_ids [ev]
  /\ chat_sessions a'
     = match ev with
       | NewChatClicked _ => length (sessions a) :: chat_sessions a
       | _ => chat_sessions a
       end.
Proof.
  destruct ev as [text| |cid|row|name|w e|]; cbn [step new_ids];
    rewrite ?app_nil_r.
  - now intros [= <-].
  - unfold send_message.
    destruct (String.eqb _ _); [now intros [= <-]|].
    destruct (selected_model a) as [model|]; [|now intros [= <-]].
    destruct (_get_session a) as [r|]; [|discriminate].
    cbn [mbind option_bind].
    set (a1 := append_message r _ a).
    destruct (_render_message "user" _ false a1) as [a2|] eqn:E2;
      [|discriminate].
    cbn [mbind option_bind]. intros [= <-].
    apply render_frame in E2.
    destruct (same_frame_trans _ _ _ (append_frame r _ a) E2)
      as (Hi & Hc & _).
    unfold ids, supersede in *. simpl.
    destruct (ollama_worker a2); simpl; now split.
  - unfold start_new_chat. intros H. apply render_frame in H.
    destruct H as (Hi & Hc & _). unfold ids in *. rewrite Hi, Hc. simpl.
    now rewrite map_app.
  - destruct (chat_sessions a !! row) as [r|]; [|discriminate].
    cbn [mbind option_bind].
    destruct (sessions a !! r) as [s|]; [|discriminate].
    cbn [mbind option_bind]. intros H.
    apply on_chat_selected_eq in H as [[_ ->]|(_ & r' & _ & ->)]; now split.
  - now intros [= <-].
  - destruct (workers a !! w) as [wk|]; [|discriminate].
    cbn [mbind option_bind].
    destruct (sessions a !! Worker.messages wk) as [s|]; [|discriminate].
    cbn [mbind option_bind].
    destruct (thread_step _ _ _ _) as [[wk' out]|];
      cbn [mbind option_bind]; [|discriminate].
    now intros [= <-].
  - destruct (queue a) as [|[w sg] q]; [discriminate|].
    destruct sg as [b|c|t|e]; cbn [slot]; try (now slot_same).
    unfold on_full.
    destruct (workers _ !! w) as [wk|]; [|discriminate].
    cbn [mbind option_bind].
    set (a1 := append_message _ _ _).
    destruct (_render_message "assistant" t false a1) as [a2|] eqn:E2;
      [|discriminate].
    cbn [mbind option_bind]. intros [= <-].
    apply render_frame in E2.
    destruct (same_frame_trans _ _ _
                (append_frame (Worker.messages wk) (assistant t)
                   (take_last (set_queue q (deferred_deletes a)))) E2) as (Hi & Hc & _).
    now split.
Qed.

Lemma steps_ids (evs : list event) (a0 a : App) :
  steps json_loads evs a0 = Some a ->
  ids a = ids a0 ++ new_ids evs
  /\ chat_sessions a
     = rev (seq (length (sessions a0)) (length (new_ids evs)))
       ++ chat_sessions a0.
Proof.
  revert a0. induction evs as [|ev evs IH]; intros a0.
  - intros [= <-]. simpl. now rewrite app_nil_r.
  - simpl steps.
    destruct (step json_loads ev a0) as [a1|] eqn:E1; [|discriminate].
    cbn [mbind option_bind]. intros H.
    destruct (IH a1 H) as [Hi Hc]. destruct (step_ids _ _ _ E1) as [Hi1 Hc1].
    rewrite new_ids_cons. split.
    + now rewrite Hi, Hi1, app_assoc.
    + rewrite Hc, Hc1.
      assert (length (sessions a1)
              = length (sessions a0) + length (new_ids [ev])) as Hl.
      { unfold ids in Hi1. apply (f_equal length) in Hi1.
        now rewrite length_app, !length_map in Hi1. }
      rewrite Hl. destruct ev; simpl; rewrite ?Nat.add_0_r; try reflexivity.
      rewrite Nat.add_1_r, <- app_assoc. reflexivity.
Qed.

Lemma init_steps_ids (model : option string) (cid : string)
  (evs : list event) (a : App) :
  steps json_loads evs (init model cid) = Some a ->
  ids a = cid :: new_ids evs
  /\ chat_sessions a = rev (seq 0 (length (sessions a))).
Proof.
  intros H. destruct (steps_ids _ _ _ H) as [Hi Hc]. split; [exact Hi|].
  assert (length (sessions a) = S (length (new_ids evs))) as Hl.
  { unfold ids in Hi. apply (f_equal length) in Hi.
    now rewrite length_map in Hi. }
  rewrite Hc, Hl. simpl. reflexivity.
Qed.

(** The chats are listed most recent first, each once: the list is the
    allocation indices of the sessions in descending order, and the ids
    are the one of [__init__] followed by those of the chats opened, in
    the order they were opened. *)
Lemma chat_list_order (model : option string) (cid : string)
  (evs : list event) (a : App) :
  steps json_loads evs (init model cid) = Some a ->
  ids a = cid :: new_ids evs
  /\ chat_sessions a = rev (seq 0 (length (sessions a)))
  /\ NoDup (chat_sessions a)
  /\ length (chat_sessions a) = length (sessions a).
Proof.
  intros H. destruct (init_steps_ids _ _ _ _ H) as [Hi Hc].
  split; [exact Hi|]. split; [exact Hc|]. rewrite Hc. split.
  - apply NoDup_ListNoDup, NoDup_rev, seq_NoDup.
  - now rewrite length_rev, length_seq.
Qed.

(** When the ids that [uuid4] hands out are all different, a click on a
    row of the chat list makes the session of that row the current one:
    [_get_session] then returns that very session. *)
Lemma click_selects_session (model : option string) (cid : string)
  (evs : list event) (a : App) (row r : nat) :
  steps json_loads evs (init model cid) = Some a ->
  NoDup (cid :: new_ids evs) ->
  chat_sessions a !! row = Some r ->
  exists s a',
    sessions a !! r = Some s
    /\ step json_loads (ChatClicked row) a = Some a'
    /\ current_session_id a' = Some (Session.id s)
    /\ _get_session a' = Some r.
Proof.
  intros H Hnd Hrow. destruct (init_steps_ids _ _ _ _ H) as [Hi Hc].
  assert (Forall (fun r' => r' < length (sessions a)) (chat_sessions a)) as Hv.
  { rewrite Hc. apply List.Forall_forall. intros x Hx.
    rewrite <- in_rev, in_seq in Hx. lia. }
  assert (r ∈ chat_sessions a) as Hin by (apply list_elem_of_lookup; eauto).
  assert (r < length (sessions a)) as Hr
    by (rewrite List.Forall_forall in Hv; now apply Hv, list_elem_of_In).
  destruct (lookup_lt_is_Some_2 _ _ Hr) as [s Hs].
  assert (NoDup (map Session.id (sessions a))) as Hnd'
    by (fold (ids a); now rewrite Hi).
  pose proof (first_with_id_unique _ _ _ _ Hnd' Hv Hin Hs) as Hf.
  exists s. cbn [step]. rewrite Hrow. cbn [mbind option_bind].
  rewrite Hs. cbn [mbind option_bind]. unfold _on_chat_selected.
  destruct (bool_decide _) eqn:E.
  - apply bool_decide_eq_true in E. exists a.
    split; [reflexivity|]. split; [reflexivity|]. split; [now symmetry|].
    unfold _get_session. now rewrite <- E.
  - unfold _get_session at 1. simpl. rewrite Hf. cbn [mbind option_bind].
    rewrite Hs. cbn [mbind option_bind]. rewrite render_initial.
    eexists. split; [reflexivity|]. split; [reflexivity|].
    split; [reflexivity | exact Hf].
Qed.

End ListFacts.

Lemma chat_list_order_witness :
  exists a,
    steps Json.loads switched_run fresh = Some a
    /\ ids a = ["c0"; "c1"]
    /\ chat_sessions a = [1; 0].
Proof.
  destruct (steps Json.loads switched_run fresh) as [a|] eqn:E;
    [|vm_compute in E; discriminate].
  exists a. split; [reflexivity|].
  destruct (chat_list_order Json.loads (Some "X") "c0" switched_run a E)
    as (Hi & Hc & _).
  split; [exact Hi|]. rewrite Hc.
  vm_compute in E. injection E as <-. reflexivity.
Defined.

Lemma click_selects_session_witness :
  exists a s a',
    steps Json.loads streaming_in_second_chat fresh = Some a
    /\ sessions a !! 0 = Some s
    /\ step Json.loads (ChatClicked 1) a = Some a'
    /\ current_session_id a' = Some (Session.id s)
    /\ _get_session a' = Some 0.
Proof.
  destruct (steps Json.loads streaming_in_second_chat fresh) as [a|] eqn:E;
    [|vm_compute in E; discriminate].
  destruct (click_selects_session Json.loads (Some "X") "c0"
              streaming_in_second_chat a 1 0 E)
    as (s & a' & Hs & Hst & Hc & Hg).
  - change (NoDup ["c0"; "c1"]).
    constructor.
    { intros H. apply list_elem_of_In in H. destruct H as [H|[]].
      discriminate. }
    constructor; [|constructor].
    intros H. apply list_elem_of_In in H. destruct H.
  - vm_compute in E. injection E as <-. reflexivity.
  - exists a, s, a'. repeat split; assumption.
Defined.

(** ** A new chat *)

Lemma start_new_chat_eq (cid : string) (a : App) :
  start_new_chat false cid a
  = Some (addWidget (Bubble "assistant" "Hello! How can I help you?")
            (append_message (length (sessions a))
               (assistant "Hello! How can I help you?")
               (_clear_chat_display
                  (set_current_session_id (Some cid)
                     (set_chat_sessions (length (sessions a) :: chat_sessions a)
                        (set_sessions
                           (sessions a ++ [{| Session.id := cid;
                                              Session.title := "New Chat";
                                              Session.messages := [] |}])
                           a)))))).
Proof.
  unfold start_new_chat. cbv zeta. apply render_appends; [|left; discriminate].
  unfold _get_session. simpl.
  rewrite list_lookup_middle by reflexivity. simpl.
  now rewrite bool_decide_eq_true_2.
Qed.

(** The New Chat button, in any state: the new session comes last in the
    store and first in the list, is the current one, and its log is the
    greeting alone; the sessions that were there, the workers, the worker
    slot and the queued signals are as before, so a stream under way goes
    on. *)
Lemma new_chat_greets (cid : string) (a : App) :
  exists a',
    start_new_chat false cid a = Some a'
    /\ sessions a'
       = sessions a
         ++ [{| Session.id := cid; Session.title := "New Chat";
                Session.messages := [assistant "Hello! How can I help you?"] |}]
    /\ chat_sessions a' = length (sessions a) :: chat_sessions a
    /\ current_session_id a' = Some cid
    /\ _get_session a' = Some (length (sessions a))
    /\ workers a' = workers a
    /\ ollama_worker a' = ollama_worker a
    /\ queue a' = queue a.
Proof.
  eexists. split; [apply start_new_chat_eq|].
  split; [|split; [reflexivity|split; [reflexivity|split; [|now repeat split]]]].
  - unfold append_message. simpl.
    rewrite <- (Nat.add_0_r (length (sessions a))) at 1.
    now rewrite alter_app_r.
  - change (_get_session (addWidget ?w ?b)) with (_get_session b).
    rewrite get_session_append. unfold _get_session. simpl.
    rewrite list_lookup_middle by reflexivity. simpl.
    now rewrite bool_decide_eq_true_2.
Qed.

(** ** An answer for a chat that is not on display *)

(** [on_full] while another chat is shown: the answer is appended once to
    the log of the session it answers and once, through
    [_render_message], to the log of the session on display; no other log
    changes. *)
Lemma on_full_two_sessions (w : nat) (wk : Worker.t) (text : string)
  (a : App) (r1 r2 : nat) :
  workers a !! w = Some wk ->
  Worker.messages wk = r1 ->
  is_Some (sessions a !! r1) ->
  _get_session a = Some r2 ->
  r1 <> r2 ->
  exists a',
    on_full w text a = Some a'
    /\ log r1 a' = log r1 a ++ [assistant text]
    /\ log r2 a' = log r2 a ++ [assistant text]
    /\ (forall r, r <> r1 -> r <> r2 -> log r a' = log r a).
Proof.
  intros Hw Hm Hs1 Hr Hne. unfold on_full. rewrite Hw.
  cbn [mbind option_bind]. rewrite Hm. fold (assistant text).
  rewrite (render_appends "assistant" text
             (append_message r1 (assistant text) (take_last a)) r2);
    [|now rewrite get_session_append | left; discriminate].
  cbn [mbind option_bind]. eexists. split; [reflexivity|].
  pose proof (get_session_lookup a r2 Hr) as Hs2.
  assert (is_Some (sessions (append_message r1 (assistant text) a) !! r2))
    as Hs2'.
  { unfold append_message. simpl. now rewrite list_lookup_alter_ne. }
  repeat split.
  - change (log r1 (append_message r2 (assistant text)
                      (append_message r1 (assistant text) a))
            = log r1 a ++ [assistant text]).
    rewrite log_append_ne by congruence. now rewrite log_append_eq.
  - change (log r2 (append_message r2 (assistant text)
                      (append_message r1 (assistant text) a))
            = log r2 a ++ [assistant text]).
    rewrite log_append_eq by assumption. now rewrite log_append_ne.
  - intros r H1 H2.
    change (log r (append_message r2 (assistant text)
                     (append_message r1 (assistant text) a))
            = log r a).
    now rewrite !log_append_ne by congruence.
Qed.

Lemma on_full_two_sessions_witness :
  exists a a',
    steps Json.loads (streaming_in_second_chat ++ [ChatClicked 1]) fresh
    = Some a
    /\ on_full 0 "Hi" a = Some a'
    /\ log 1 a' = log 1 a ++ [assistant "Hi"]
    /\ log 0 a' = [assistant "Hi"].
Proof.
  destruct (steps Json.loads (streaming_in_second_chat ++ [ChatClicked 1])
              fresh) as [a|] eqn:E; [|vm_compute in E; discriminate].
  vm_compute in E. injection E as <-.
  match goal with |- exists a a', Some ?x = Some a /\ _ =>
    destruct (on_full_two_sessions 0
                (Worker.goto Streaming "Hi"
                   (Worker.post [assistant "Hello! How can I help you?";
                                 user "A"; user "A"] (Worker.init "X" 1)))
                "Hi" x 1 0)
      as (a' & Hf & H1 & H2 & _);
      [reflexivity | reflexivity | now eexists | reflexivity | discriminate |];
    exists x, a'
  end.
  split; [reflexivity|]. split; [exact Hf|]. split; [exact H1 | exact H2].
Defined.

(** ** The workers and the queue along a run *)

Lemma worker_later_refl (w : Worker.t) : worker_later w w.
Proof. now repeat split. Qed.

Lemma worker_later_trans (w1 w2 w3 : Worker.t) :
  worker_later w1 w2 -> worker_later w2 w3 -> worker_later w1 w3.
Proof.
  intros (Hm & Hs & Hr & Hf) (Hm' & Hs' & Hr' & Hf').
  split; [congruence|]. split; [congruence|].
  split; [intros H; now apply Hr', Hr|].
  intros H. destruct (Hf H) as [H1 H2]. destruct (Hf' H1) as [H3 H4].
  split; congruence.
Qed.

Lemma worker_later_stop (w : Worker.t) : worker_later w (Worker.stop w).
Proof. now repeat split. Qed.

Lemma thread_step_later (json_loads : string -> option Py.value)
  (msgs : list Message.t) (ev : net_event) (w w' : Worker.t)
  (out : list signal) :
  thread_step json_loads msgs ev w = Some (w', out) -> worker_later w w'.
Proof.
  unfold thread_step.
  destruct (Worker.stage w) eqn:Es, ev; try discriminate;
    try (intros [= <- <-]; repeat split; intros; try congruence;
         simpl; assumption).
  destruct (loop_body _ _ _ _) as [[[| |e] full'] out'];
    intros [= <- <-]; repeat split; intros; try congruence;
    simpl; assumption.
Qed.

(** What a step does to the workers, the queue and the worker slot. *)
Lemma step_workers (json_loads : string -> option Py.value) (ev : event)
  (a a' : App) :
  step json_loads ev a = Some a' ->
  (forall w wk, workers a !! w = Some wk ->
     exists wk', workers a' !! w = Some wk' /\ worker_later wk wk')
  /\ (Forall (fun ws => fst ws < length (workers a)) (queue a) ->
      Forall (fun ws => fst ws < length (workers a')) (queue a'))
  /\ ((forall w, ollama_worker a = Some w -> S w = length (workers a)) ->
      forall w, ollama_worker a' = Some w -> S w = length (workers a')).
Proof.
  assert (forall b : App,
            workers b = workers a -> queue b = queue a ->
            ollama_worker b = ollama_worker a ->
            (forall w wk, workers a !! w = Some wk ->
               exists wk', workers b !! w = Some wk' /\ worker_later wk wk')
            /\ (Forall (fun ws => fst ws < length (workers a)) (queue a) ->
                Forall (fun ws => fst ws < length (workers b)) (queue b))
            /\ ((forall w, ollama_worker a = Some w -> S w = length (workers a)) ->
                forall w, ollama_worker b = Some w -> S w = length (workers b)))
    as Hsame.
  { intros b -> -> ->. repeat split; try tauto.
    intros w wk H. exists wk. split; [exact H | apply worker_later_refl]. }
  destruct ev as [text| |cid|row|name|w e|]; cbn [step].
  - intros [= <-]. now apply Hsame.
  - unfold send_message.
    destruct (String.eqb _ _); [intros [= <-]; now apply Hsame|].
    destruct (selected_model a) as [model|];
      [|intros [= <-]; now apply Hsame].
    destruct (_get_session a) as [r|]; [|discriminate].
    cbn [mbind option_bind].
    set (a1 := append_message r _ a).
    destruct (_render_message "user" _ false a1) as [a2|] eqn:E2;
      [|discriminate].
    cbn [mbind option_bind]. intros [= <-].
    apply render_frame in E2. destruct E2 as (_ & _ & _ & Hw & Ho & Hq).
    change (workers a1) with (workers a) in Hw.
    change (ollama_worker a1) with (ollama_worker a) in Ho.
    change (queue a1) with (queue a) in Hq.
    set (b := add_placeholder (set_input_box "" a2)).
    assert (workers b = workers a /\ ollama_worker b = ollama_worker a
            /\ queue b = queue a) as (Hwb & Hob & Hqb)
      by (repeat split; assumption).
    clearbody b.
    assert (exists ws, ws = match ollama_worker a with
                            | Some w0 => alter Worker.stop w0 (workers a)
                            | None => workers a
                            end
                       /\ length ws = length (workers a)
                       /\ forall w wk, workers a !! w = Some wk ->
                            exists wk', ws !! w = Some wk'
                                        /\ worker_later wk wk')
      as (ws & Hws & Hlen & Hlater).
    { eexists. split; [reflexivity|]. destruct (ollama_worker a) as [w0|].
      - split; [apply length_alter|]. intros w wk H.
        rewrite list_lookup_alter. destruct (decide (w0 = w)) as [->|_].
        + rewrite H. eexists. split; [reflexivity | apply worker_later_stop].
        + exists wk. split; [exact H | apply worker_later_refl].
      - split; [reflexivity|]. intros w wk H. exists wk.
        split; [exact H | apply worker_later_refl]. }
    assert (workers (supersede b) = ws) as Hw4.
    { rewrite Hws. unfold supersede. rewrite Hob.
      destruct (ollama_worker a); simpl; congruence. }
    assert (queue (supersede b) = queue a) as Hq4.
    { unfold supersede. destruct (ollama_worker b); simpl; congruence. }
    cbn [workers queue ollama_worker set_ollama_worker set_workers].
    rewrite Hw4, Hq4. repeat split.
    + intros w wk H. destruct (Hlater w wk H) as (wk' & Hl & Hwl).
      exists wk'. split; [|exact Hwl]. now apply lookup_app_l_Some.
    + intros H. eapply List.Forall_impl; [|exact H].
      intros [w sg] Hlt. simpl in *. rewrite length_app, Hlen. simpl. lia.
    + intros _ w [= <-]. rewrite length_app. simpl. lia.
  - intros H. rewrite start_new_chat_eq in H. injection H as <-.
    now apply Hsame.
  - destruct (chat_sessions a !! row) as [r|]; [|discriminate].
    cbn [mbind option_bind].
    destruct (sessions a !! r) as [s|]; [|discriminate].
    cbn [mbind option_bind]. intros H.
    apply on_chat_selected_frame in H as (_ & Ho & Hw & Hq & _).
    now apply Hsame.
  - intros [= <-]. now apply Hsame.
  - destruct (workers a !! w) as [wk|] eqn:Ew; [|discriminate].
    cbn [mbind option_bind].
    destruct (sessions a !! Worker.messages wk) as [s|]; [|discriminate].
    cbn [mbind option_bind].
    destruct (thread_step _ _ _ _) as [[wk' out]|] eqn:Et;
      cbn [mbind option_bind]; [|discriminate].
    intros [= <-]. simpl. apply thread_step_later in Et.
    pose proof (lookup_lt_Some _ _ _ Ew) as Hlt.
    repeat split.
    + intros w1 wk1 H. destruct (decide (w = w1)) as [->|Hne].
      * rewrite list_lookup_insert_eq by exact Hlt. eexists.
        split; [reflexivity|]. congruence.
      * rewrite list_lookup_insert_ne by exact Hne. exists wk1.
        split; [exact H | apply worker_later_refl].
    + intros H. rewrite length_insert. apply Forall_app. split; [exact H|].
      apply List.Forall_forall. intros [w1 sg] Hin.
      apply in_map_iff in Hin as (sg' & [= <- <-] & _). exact Hlt.
    + intros H w1 Hw1. rewrite length_insert. now apply H.
  - destruct (queue a) as [|[w sg] q] eqn:Eq; [discriminate|].
    assert (forall b : App,
              workers b = workers a -> queue b = q ->
              (ollama_worker b = ollama_worker a \/ ollama_worker b = None) ->
              (forall w wk, workers a !! w = Some wk ->
                 exists wk', workers b !! w = Some wk' /\ worker_later wk wk')
              /\ (Forall (fun ws => fst ws < length (workers a)) ((w, sg) :: q)
                  -> Forall (fun ws => fst ws < length (workers b)) (queue b))
              /\ ((forall w, ollama_worker a = Some w -> S w = length (workers a)) ->
                  forall w, ollama_worker b = Some w -> S w = length (workers b)))
      as Htail.
    { intros b -> -> Ho. repeat split.
      - intros w1 wk H. exists wk. split; [exact H | apply worker_later_refl].
      - intros H. now inversion H.
      - intros H w1 Hw1. destruct Ho as [Ho|Ho]; rewrite Ho in Hw1;
          [now apply H | discriminate]. }
    destruct sg as [b|c|t|e]; cbn [slot];
      try (slot_same; apply Htail; try reflexivity; now left).
    unfold on_full.
    destruct (workers _ !! w) as [wk|]; [|discriminate].
    cbn [mbind option_bind].
    set (a1 := append_message _ _ _).
    destruct (_render_message "assistant" t false a1) as [a2|] eqn:E2;
      [|discriminate].
    cbn [mbind option_bind]. intros [= <-].
    apply render_frame in E2. destruct E2 as (_ & _ & _ & Hw & _ & Hq).
    apply Htail; [exact Hw | exact Hq | now right].
Qed.

Section RunFacts.

Variable json_loads : string -> option Py.value.

(** A worker keeps its model and its session for life; once stopped it
    stays stopped, and once [run] has returned its text is final. *)
Lemma worker_for_life (evs : list event) (a a' : App) (w : nat)
  (wk : Worker.t) :
  steps json_loads evs a = Some a' ->
  workers a !! w = Some wk ->
  exists wk', workers a' !! w = Some wk' /\ worker_later wk wk'.
Proof.
  revert a wk. induction evs as [|ev evs IH]; intros a wk; simpl.
  - intros [= <-] H. exists wk. split; [exact H | apply worker_later_refl].
  - destruct (step json_loads ev a) as [a1|] eqn:E1; [|discriminate].
    cbn [mbind option_bind]. intros H Hw.
    destruct (proj1 (step_workers _ _ _ _ E1) w wk Hw) as (wk1 & Hw1 & Hl1).
    destruct (IH a1 wk1 H Hw1) as (wk' & Hw' & Hl').
    exists wk'. split; [exact Hw'|]. exact (worker_later_trans _ _ _ Hl1 Hl').
Qed.

Lemma steps_slot (evs : list event) (a a' : App) :
  steps json_loads evs a = Some a' ->
  (forall w, ollama_worker a = Some w -> S w = length (workers a)) ->
  forall w, ollama_worker a' = Some w -> S w = length (workers a').
Proof.
  revert a. induction evs as [|ev evs IH]; intros a; simpl.
  - now intros [= <-].
  - destruct (step json_loads ev a) as [a1|] eqn:E1; [|discriminate].
    cbn [mbind option_bind]. intros H H0. apply (IH a1 H).
    exact (proj2 (proj2 (step_workers _ _ _ _ E1)) H0).
Qed.

(** The worker slot never holds an old worker: when it holds one, it is
    the one created last. *)
Lemma slot_is_newest (a : App) (w : nat) :
  reachable json_loads a ->
  ollama_worker a = Some w -> S w = length (workers a).
Proof.
  intros (model & cid & evs & H). apply (steps_slot _ _ _ H). discriminate.
Qed.













End RunFacts.

Lemma worker_for_life_witness :
  exists a0 a wk,
    steps Json.loads (say "A") fresh = Some a0
    /\ steps Json.loads (drop 2 third_send_run) a0 = Some a
    /\ workers a0 !! 0 = Some (Worker.init "X" 0)
    /\ workers a !! 0 = Some wk
    /\ worker_later (Worker.init "X" 0) wk.
Proof.
  destruct (steps Json.loads (say "A") fresh) as [a0|] eqn:E0;
    [|vm_compute in E0; discriminate].
  vm_compute in E0. injection E0 as <-.
  match goal with |- exists a0 a wk, Some ?x = Some a0 /\ _ =>
    destruct (steps Json.loads (drop 2 third_send_run) x) as [a|] eqn:E;
      [|vm_compute in E; discriminate];
    destruct (worker_for_life Json.loads (drop 2 third_send_run) x a 0
                (Worker.init "X" 0) E eq_refl) as (wk & Hwk & Hl);
    exists x, a, wk
  end.
  split; [reflexivity|]. split; [exact E|]. split; [reflexivity|].
  split; assumption.
Defined.

Lemma slot_is_newest_witness :
  exists a,
    steps Json.loads third_send_run fresh = Some a
    /\ ollama_worker a = Some 2
    /\ length (workers a) = 3.
Proof.
  destruct (steps Json.loads third_send_run fresh) as [a|] eqn:E;
    [|vm_compute in E; discriminate].
  exists a. split; [reflexivity|].
  assert (ollama_worker a = Some 2) as Ho
    by (vm_compute in E; injection E as <-; reflexivity).
  split; [exact Ho|]. symmetry.
  apply (slot_is_newest Json.loads a 2); [|exact Ho].
  exists (Some "X"), "c0", third_send_run. exact E.
Defined.



(** ** The request of a worker *)

(** A send that passes the guards, then the start of the new worker
    thread: the request posted to the server carries the selected model
    and the log of the current session, which now ends with the user
    message twice. *)
Lemma request_carries_log (json_loads : string -> option Py.value)
  (a : App) (text model : string) (r : nat) :
  Py.strip (input_box a) = text -> text <> "" ->
  selected_model a = Some model ->
  _get_session a = Some r ->
  exists a' a'' wk,
    send_message a = Some a'
    /\ step json_loads (Thread (length (workers a)) Begins) a' = Some a''
    /\ workers a'' !! length (workers a) = Some wk
    /\ Worker.payload wk
       = Some (model, log r a ++ [user text; user text]).
Proof.
  intros Ht Hne Hm Hr.
  pose proof (send_message_sends a text model r Ht Hne Hm Hr) as Hs.
  cbv zeta in Hs.
  set (a4 := supersede (add_placeholder (set_input_box ""
               (addWidget (Bubble "user" text)
                  (append_message r (user text)
                     (append_message r (user text) a)))))) in *.
  assert (length (workers a4) = length (workers a)) as Hlen.
  { unfold a4, supersede. simpl. destruct (ollama_worker a); simpl;
      [apply length_alter | reflexivity]. }
  assert (sessions a4 = sessions (append_message r (user text)
                                    (append_message r (user text) a)))
    as Hss.
  { unfold a4, supersede. simpl. now destruct (ollama_worker a). }
  assert (log r a4 = log r a ++ [user text; user text]) as Hlog.
  { unfold a4. rewrite log_supersede.
    change (log r (append_message r (user text)
                     (append_message r (user text) a))
            = log r a ++ [user text; user text]).
    pose proof (get_session_lookup a r Hr) as Hl.
    rewrite log_append_eq.
    - rewrite log_append_eq by exact Hl. now rewrite <- app_assoc.
    - unfold append_message. simpl. rewrite list_lookup_alter_eq.
      destruct Hl as [s ->]. now eexists. }
  assert (is_Some (sessions a4 !! r)) as [s4 Hs4].
  { rewrite Hss. simpl. rewrite !list_lookup_alter_eq.
    destruct (get_session_lookup a r Hr) as [s ->]. now eexists. }
  eexists. eexists. eexists. split; [exact Hs|].
  cbn [step]. simpl workers. simpl sessions.
  rewrite <- Hlen, list_lookup_middle by reflexivity.
  cbn [mbind option_bind]. simpl Worker.messages.
  change (sessions a4 !! r) with (sessions a4 !! r). rewrite Hs4.
  cbn [mbind option_bind]. cbn [thread_step Worker.stage Worker.init].
  cbn [mbind option_bind]. split; [reflexivity|]. simpl workers.
  rewrite list_lookup_insert_eq
    by (rewrite length_app; simpl; lia).
  split; [reflexivity|]. simpl. f_equal. f_equal.
  unfold log in Hlog. now rewrite Hs4 in Hlog.
Qed.

Lemma request_carries_log_witness :
  exists a' a'' wk,
    send_message (set_input_box "Hello" fresh) = Some a'
    /\ step Json.loads (Thread 0 Begins) a' = Some a''
    /\ workers a'' !! 0 = Some wk
    /\ Worker.payload wk = Some ("X", [user "Hello"; user "Hello"]).
Proof.
  exact (request_carries_log Json.loads (set_input_box "Hello" fresh)
           "Hello" "X" 0 eq_refl ltac:(discriminate) eq_refl eq_refl).
Defined.
